(** * The interaction orchestrator of [src/components/Generate.jsx]

    A shallow embedding of the [Generate] component: its state cells
    ([message], [responses], [currentResponseIndex], [isLoading],
    [apiStatus], [parameters]), its three asynchronous handlers
    ([checkHealth], [loadDefaults], [handleSubmit]) and the controls of the
    rendered page (submit button, sliders, carousel buttons and dots).

    JavaScript values are modelled as the component meets them: what
    [response.json()] yields, what [useState] holds.  Asynchronous handlers
    are split at their suspension point: the part that runs when the handler
    is called, and the part that runs when the request settles. *)

From Stdlib Require Import ZArith QArith Qround Lqa Ascii String.
From stdpp Require Import base option list gmap strings pretty.

Set Warnings "-register-all".
Open Scope string_scope.

(** ** JavaScript values *)

(** A number.  Finite numbers are kept as the rational they denote; the code
    never does arithmetic on them, it only stores them and tests them for
    truthiness. *)
Inductive number :=
| Finite (q : Q)
| PosInfinity
| NegInfinity
| NaN.

(** The values a JSON payload or a state cell can hold.  An object is the map
    of its own properties (property order is not modelled). *)
Inductive value :=
| VUndefined
| VNull
| VBool (b : bool)
| VNum (n : number)
| VStr (s : string)
| VArr (items : list value)
| VObj (props : gmap string value).

(** What depends on the JavaScript engine and not on the component: how a
    finite number is printed; the message of the [TypeError] raised when a
    property is read from [null] or [undefined] ([object_expr] is the text of
    the expression read from, [prop] the property); and the message of the
    [TypeError] raised when an object cannot be turned into a primitive
    value. *)
Class Engine := {
  number_to_string : Q -> string;
  type_error_message : forall (object_expr : string) (base : value) (prop : string), string;
  to_primitive_error_message : value -> string
}.

(** [ToBoolean]: the falsy values are [undefined], [null], [false], [0],
    [NaN] and the empty string. *)
Definition number_truthy (n : number) : bool :=
  match n with
  | Finite q => negb (Z.eqb (Qnum q) 0)
  | PosInfinity | NegInfinity => true
  | NaN => false
  end.

Definition ToBoolean (v : value) : bool :=
  match v with
  | VUndefined | VNull => false
  | VBool b => b
  | VNum n => number_truthy n
  | VStr s => negb (String.eqb s "")
  | VArr _ | VObj _ => true
  end.

(** [a || b] *)
Definition or_else (a b : value) : value := if ToBoolean a then a else b.

Definition nullish (v : value) : bool :=
  match v with
  | VUndefined | VNull => true
  | _ => false
  end.

(** Strings hold UTF-8 encoded text.  [utf8_width c] is the number of bytes
    of the character whose first byte is [c]. *)
Definition utf8_width (c : ascii) : nat :=
  let n := nat_of_ascii c in
  if Nat.ltb n 192 then 1 else if Nat.ltb n 224 then 2 else if Nat.ltb n 240 then 3 else 4.

Definition string_take (n : nat) (s : string) : string := substring 0 n s.
Definition string_drop (n : nat) (s : string) : string := substring n (String.length s - n) s.

(** The UTF-16 code units of a string, in order, each kept as a string.  A
    character of one to three bytes is one unit.  A character of four bytes
    (outside the Basic Multilingual Plane) is two units, its high and its low
    surrogate, each written in the three-byte scheme of its code. *)
Definition surrogate (u : N) : string :=
  String (ascii_of_N (224 + u / 4096))
    (String (ascii_of_N (128 + (u / 64) mod 64))
       (String (ascii_of_N (128 + u mod 64)) EmptyString)).

Definition surrogates (b0 b1 b2 b3 : ascii) : list string :=
  let code := (N_of_ascii b0 mod 8 * 262144 + N_of_ascii b1 mod 64 * 4096
               + N_of_ascii b2 mod 64 * 64 + N_of_ascii b3 mod 64)%N in
  let offset := (code - 65536)%N in
  [surrogate (55296 + offset / 1024); surrogate (56320 + offset mod 1024)].

Fixpoint code_units_fuel (fuel : nat) (s : string) : list string :=
  match fuel, s with
  | S fuel, String b0 rest =>
      match utf8_width b0, rest with
      | 4%nat, String b1 (String b2 (String b3 rest')) =>
          (surrogates b0 b1 b2 b3 ++ code_units_fuel fuel rest')%list
      | width, _ =>
          string_take width s :: code_units_fuel fuel (string_drop width s)
      end
  | _, _ => []
  end.

Definition code_units (s : string) : list string := code_units_fuel (String.length s) s.

(** [v[i]] for a non-nullish [v]. *)
Definition get_index (v : value) (i : nat) : value :=
  match v with
  | VArr items => default VUndefined (items !! i)
  | VStr s => default VUndefined (VStr <$> code_units s !! i)
  | VObj props => default VUndefined (props !! pretty i)
  | _ => VUndefined
  end.

(** [v.name] for a non-nullish [v], where [name] is one of the property names
    the component reads ([status], [defaults], [choices], [message],
    [content], [error]): none of them is an index or a member of a built-in
    prototype, so only an object can have it, as an own property. *)
Definition get (v : value) (name : string) : value :=
  match v with
  | VObj props => default VUndefined (props !! name)
  | _ => VUndefined
  end.

(** [v?.name] and [v?.[i]] *)
Definition get_opt (v : value) (name : string) : value :=
  if nullish v then VUndefined else get v name.

Definition get_index_opt (v : value) (i : nat) : value :=
  if nullish v then VUndefined else get_index v i.

(** The own enumerable properties of a value, as object spread
    ([{...v}]) and [Object.entries] see them. *)
Definition indexed (l : list value) : gmap string value :=
  list_to_map (imap (fun i x => (pretty i, x)) l).

Definition own_properties (v : value) : gmap string value :=
  match v with
  | VObj props => props
  | VArr items => indexed items
  | VStr s => indexed (VStr <$> code_units s)
  | _ => ∅
  end.

(** [Number::toString] *)
Definition number_ToString `{Engine} (n : number) : string :=
  match n with
  | Finite q => number_to_string q
  | PosInfinity => "Infinity"
  | NegInfinity => "-Infinity"
  | NaN => "NaN"
  end.

Fixpoint join (sep : string) (l : list string) : string :=
  match l with
  | [] => ""
  | [x] => x
  | x :: l => x ++ sep ++ join sep l
  end.

(** ** [String.prototype.trim] *)

(** [leading_space s] is the rest of [s] after one leading white-space or
    line-terminator character, if [s] starts with one.  The characters are
    those of ECMAScript's WhiteSpace and LineTerminator productions, in
    UTF-8: U+0009..U+000D, U+0020, U+00A0, U+1680, U+2000..U+200A, U+2028,
    U+2029, U+202F, U+205F, U+3000, U+FEFF. *)
Definition leading_space (s : string) : option string :=
  match s with
  | String c1 r1 =>
      let n1 := nat_of_ascii c1 in
      if (Nat.leb 9 n1 && Nat.leb n1 13) || Nat.eqb n1 32 then Some r1 else
      match r1 with
      | String c2 r2 =>
          let n2 := nat_of_ascii c2 in
          if Nat.eqb n1 194 && Nat.eqb n2 160 then Some r2 else
          match r2 with
          | String c3 r3 =>
              let n3 := nat_of_ascii c3 in
              if (Nat.eqb n1 225 && Nat.eqb n2 154 && Nat.eqb n3 128)
                 || (Nat.eqb n1 226 && Nat.eqb n2 128
                     && ((Nat.leb 128 n3 && Nat.leb n3 138)
                         || Nat.eqb n3 168 || Nat.eqb n3 169 || Nat.eqb n3 175))
                 || (Nat.eqb n1 226 && Nat.eqb n2 129 && Nat.eqb n3 159)
                 || (Nat.eqb n1 227 && Nat.eqb n2 128 && Nat.eqb n3 128)
                 || (Nat.eqb n1 239 && Nat.eqb n2 187 && Nat.eqb n3 191)
              then Some r3 else None
          | EmptyString => None
          end
      | EmptyString => None
      end
  | EmptyString => None
  end.

Fixpoint trimStart_fuel (fuel : nat) (s : string) : string :=
  match fuel with
  | O => s
  | S fuel =>
      match leading_space s with
      | Some rest => trimStart_fuel fuel rest
      | None => s
      end
  end.

Definition trimStart (s : string) : string := trimStart_fuel (String.length s) s.

(** The shortest prefix of [s] that is followed by white space only. *)
Fixpoint trimEnd (s : string) : string :=
  match s with
  | EmptyString => EmptyString
  | String c rest =>
      if String.eqb (trimStart s) "" then "" else String c (trimEnd rest)
  end.

Definition trim (s : string) : string := trimEnd (trimStart s).

(** ** The component's data *)

(** The [config] entries of the slider table. *)
Record config := {
  min : Q;
  max : Q;
  step : Q;
  label : string
}.

Definition configs : gmap string config :=
  {[ "temperature" := {| min := 0; max := 2; step := 1 # 10; label := "Temperature" |};
     "top_p" := {| min := 0; max := 1; step := 1 # 20; label := "Top P" |};
     "top_k" := {| min := 1; max := 100; step := 1; label := "Top K" |};
     "max_tokens" := {| min := 1; max := 1000; step := 1; label := "Max Tokens" |};
     "frequency_penalty" := {| min := -2; max := 2; step := 1 # 10; label := "Frequency Penalty" |};
     "presence_penalty" := {| min := -2; max := 2; step := 1 # 10; label := "Presence Penalty" |} ]}.

(** [configs] is an object literal: besides its six own entries, a lookup
    also finds the members it inherits from [Object.prototype], all of them
    truthy. *)
Definition Object_prototype_members : list string :=
  [ "constructor"; "hasOwnProperty"; "isPrototypeOf"; "propertyIsEnumerable";
    "toLocaleString"; "toString"; "valueOf"; "__proto__";
    "__defineGetter__"; "__defineSetter__"; "__lookupGetter__"; "__lookupSetter__" ].

(** [!configs[key]] is false: the slider of [key] is rendered. *)
Definition config_found (key : string) : bool :=
  bool_decide (is_Some (configs !! key)) || bool_decide (key ∈ Object_prototype_members).

(** The initial value of the [parameters] cell. *)
Definition initial_parameters : value :=
  VObj {[ "temperature" := VNum (Finite (7 # 10));
          "top_p" := VNum (Finite (9 # 10));
          "top_k" := VNum (Finite 40);
          "max_tokens" := VNum (Finite 256);
          "frequency_penalty" := VNum (Finite 0);
          "presence_penalty" := VNum (Finite 0) ]}.

Inductive ApiStatus := checking | healthy | partial | error.

(** An entry of [responses].  [newResponse] has a [parameters] field and no
    [isError] field; [errorResponse] has [isError: true] and no [parameters]
    field: an absent field is [None].  [r_id] is [Date.now()]. *)
Record response := {
  r_id : Z;
  r_prompt : string;
  r_content : value;
  r_timestamp : string;
  r_parameters : option value;
  r_isError : option bool
}.

(** The state cells of the component. *)
Record state := {
  message : string;
  responses : list response;
  currentResponseIndex : Z;
  isLoading : bool;
  apiStatus : ApiStatus;
  parameters : value
}.

Definition initial_state : state :=
  {| message := "";
     responses := [];
     currentResponseIndex := 0;
     isLoading := false;
     apiStatus := checking;
     parameters := initial_parameters |}.

(** ** Requests *)

(** How a [fetch] goes.  [Rejected msg]: the promise rejects with an error
    whose [message] is [msg] (no HTTP response).  [Responded ok body]: a
    response arrives, [ok] is [response.ok], and [response.json()] either
    yields [Json data] or rejects ([NotJson msg], the body is not JSON). *)
Inductive body :=
| Json (data : value)
| NotJson (msg : string).

Inductive fetched :=
| Rejected (msg : string)
| Responded (ok : bool) (b : body).

(** A [try] block either completes or throws an error, of which only
    [error.message] is ever read. *)
Inductive result (A : Type) :=
| Ok (a : A)
| Throw (msg : string).

Arguments Ok {A} a.
Arguments Throw {A} msg.

Definition bind {A B} (r : result A) (k : A -> result B) : result B :=
  match r with
  | Ok a => k a
  | Throw msg => Throw msg
  end.

Notation "x <- r ;; k" := (bind r (fun x => k))
  (at level 100, r at next level, right associativity).

Definition catch {A} (r : result A) (handler : string -> A) : A :=
  match r with
  | Ok a => a
  | Throw msg => handler msg
  end.

(** [await fetch(...)] *)
Definition await (o : fetched) : result (bool * body) :=
  match o with
  | Rejected msg => Throw msg
  | Responded ok b => Ok (ok, b)
  end.

(** [await response.json()] *)
Definition json (b : body) : result value :=
  match b with
  | Json data => Ok data
  | NotJson msg => Throw msg
  end.

(** [expr.name] where [expr] may be nullish: reading from [null] or
    [undefined] throws a [TypeError]. *)
Definition read `{Engine} (object_expr : string) (v : value) (name : string) : result value :=
  if nullish v then Throw (type_error_message object_expr v name) else Ok (get v name).

(** [ToString], as a template literal applies it.  An object that has no
    own [toString] prints as "[object Object]" (the inherited method).  One
    that has an own [toString] cannot be printed: a JSON value is never
    callable, so the own property hides the inherited method, [valueOf] gives
    no primitive either, and a [TypeError] is thrown.  An array prints its
    elements joined by commas, [null] and [undefined] as nothing. *)
Fixpoint ToString `{Engine} (v : value) : result string :=
  match v with
  | VUndefined => Ok "undefined"
  | VNull => Ok "null"
  | VBool true => Ok "true"
  | VBool false => Ok "false"
  | VNum n => Ok (number_ToString n)
  | VStr s => Ok s
  | VArr items =>
      pieces <-
        (fix each (l : list value) : result (list string) :=
           match l with
           | [] => Ok []
           | x :: l =>
               piece <- (if nullish x then Ok "" else ToString x) ;;
               pieces <- each l ;;
               Ok (piece :: pieces)
           end) items ;;
      Ok (join "," pieces)
  | VObj props =>
      if bool_decide (is_Some (props !! "toString"))
      then Throw (to_primitive_error_message v)
      else Ok "[object Object]"
  end.

(** ** The state setters *)

Definition setResponses (f : list response -> list response) (s : state) : state :=
  {| message := message s; responses := f (responses s);
     currentResponseIndex := currentResponseIndex s; isLoading := isLoading s;
     apiStatus := apiStatus s; parameters := parameters s |}.

Definition setCurrentResponseIndex (f : Z -> Z) (s : state) : state :=
  {| message := message s; responses := responses s;
     currentResponseIndex := f (currentResponseIndex s); isLoading := isLoading s;
     apiStatus := apiStatus s; parameters := parameters s |}.

Definition setIsLoading (b : bool) (s : state) : state :=
  {| message := message s; responses := responses s;
     currentResponseIndex := currentResponseIndex s; isLoading := b;
     apiStatus := apiStatus s; parameters := parameters s |}.

Definition setApiStatus (a : ApiStatus) (s : state) : state :=
  {| message := message s; responses := responses s;
     currentResponseIndex := currentResponseIndex s; isLoading := isLoading s;
     apiStatus := a; parameters := parameters s |}.

Definition setParameters (f : value -> value) (s : state) : state :=
  {| message := message s; responses := responses s;
     currentResponseIndex := currentResponseIndex s; isLoading := isLoading s;
     apiStatus := apiStatus s; parameters := f (parameters s) |}.

Definition setMessage (text : string) (s : state) : state :=
  {| message := text; responses := responses s;
     currentResponseIndex := currentResponseIndex s; isLoading := isLoading s;
     apiStatus := apiStatus s; parameters := parameters s |}.

(** ** [checkHealth] *)

(** [v === text] for a string literal [text]. *)
Definition strict_equal_string (v : value) (text : string) : bool :=
  match v with
  | VStr s => String.eqb s text
  | _ => false
  end.

(** The status [checkHealth] sets once the [/health] request has gone as
    [o].  ([response.ok] is not looked at.) *)
Definition probe `{Engine} (o : fetched) : ApiStatus :=
  catch
    (response <- await o ;;
     data <- json (snd response) ;;
     st <- read "data" data "status" ;;
     Ok (if strict_equal_string st "healthy" then healthy else partial))
    (fun _ => error).

Definition checkHealth `{Engine} (o : fetched) (s : state) : state :=
  setApiStatus (probe o) s.

(** ** [loadDefaults] *)

(** The state after the [/parameters/defaults] request has gone as [o], and
    the text of the [alert] shown.  ([response.ok] is not looked at.) *)
Definition loadDefaults `{Engine} (o : fetched) (s : state) : state * string :=
  catch
    (response <- await o ;;
     data <- json (snd response) ;;
     defaults <- read "data" data "defaults" ;;
     Ok (setParameters (fun _ => defaults) s, "Parameters reset to defaults!"))
    (fun msg => (s, "Failed to load defaults: " ++ msg)).

(** ** [handleSubmit] *)

(** [{ messages: [{ role: "user", content: message }], ...parameters }]: the
    spread comes last, so a property of [parameters] named [messages] wins. *)
Definition requestBody (message : string) (parameters : value) : value :=
  VObj (own_properties parameters
        ∪ {[ "messages" :=
               VArr [VObj {[ "role" := VStr "user"; "content" := VStr message ]}] ]}).

(** A call of [handleSubmit] suspended at [await fetch(...)]: the [message]
    and [parameters] its closure holds, and the body it has sent. *)
Record submission := {
  sub_message : string;
  sub_parameters : value;
  sub_body : value
}.

(** [handleSubmit], up to the [await]: the new state, and the call now in
    flight if a request was sent. *)
Definition handleSubmit (s : state) : state * option submission :=
  if negb (ToBoolean (VStr (trim (message s)))) then (s, None)
  else
    (setIsLoading true s,
     Some {| sub_message := message s;
             sub_parameters := parameters s;
             sub_body := requestBody (message s) (parameters s) |}).

(** [data.choices?.[0]?.message?.content] *)
Definition first_content (choices : value) : value :=
  get_opt (get_opt (get_index_opt choices 0) "message") "content".

(** The record a suspended call builds once its request has gone as [o];
    [now] is [Date.now()] and [stamp] is [new Date().toLocaleString()]. *)
Definition record_of `{Engine} (c : submission) (o : fetched) (now : Z) (stamp : string)
  : response :=
  catch
    (response <- await o ;;
     if fst response then
       data <- json (snd response) ;;
       choices <- read "data" data "choices" ;;
       let content := or_else (first_content choices) (VStr "No response content") in
       Ok {| r_id := now; r_prompt := sub_message c; r_content := content;
             r_timestamp := stamp;
             r_parameters := Some (VObj (own_properties (sub_parameters c)));
             r_isError := None |}
     else
       errorData <- json (snd response) ;;
       err <- read "errorData" errorData "error" ;;
       text <- ToString (or_else err (VStr "Unknown error")) ;;
       Ok {| r_id := now; r_prompt := sub_message c;
             r_content := VStr ("Error: " ++ text);
             r_timestamp := stamp;
             r_parameters := None;
             r_isError := Some true |})
    (fun msg =>
       {| r_id := now; r_prompt := sub_message c;
          r_content := VStr ("Network error: " ++ msg);
          r_timestamp := stamp;
          r_parameters := None;
          r_isError := Some true |}).

(** [handleSubmit] from the [await] on: the record goes to the front of
    [responses], the index to 0, and [finally] clears [isLoading]. *)
Definition handleSubmit_settled `{Engine}
    (c : submission) (o : fetched) (now : Z) (stamp : string) (s : state) : state :=
  let newResponse := record_of c o now stamp in
  setIsLoading false
    (setCurrentResponseIndex (fun _ => 0%Z)
       (setResponses (fun prev => newResponse :: prev) s)).

(** ** Sliders and carousel *)

(** The slider's [onChange]: [prev => ({ ...prev, [key]: raw })], where [raw]
    is [parseFloat(e.target.value)]. *)
Definition onChange (key : string) (raw : number) (prev : value) : value :=
  VObj (<[key := VNum raw]> (own_properties prev)).

(** A slider is rendered for each entry of [Object.entries(parameters)] whose
    key [configs] resolves. *)
Definition has_slider (parameters : value) (key : string) : bool :=
  bool_decide (is_Some (own_properties parameters !! key)) && config_found key.

(** The sliders are [<input type="range" min max step>] elements with the
    numbers of [configs] (lines 256 to 266).  Such an element never holds the number it is asked
    to take as such: one below [min] becomes [min], one above [max] becomes
    [max], and the result is moved to the nearest number that is a whole
    number of steps above [min], the upper one when two are as near, but not
    beyond [max].  Asked to take what is no finite number, it takes the
    middle of its range, treated likewise. *)
Definition round_to_step (lo hi st q : Q) : Q :=
  (let n := Qfloor ((q - lo) / st + (1 # 2)) in
   let v := lo + inject_Z n * st in
   if Qle_bool v hi then v else lo + inject_Z (n - 1) * st)%Q.

Definition range_value (c : config) (raw : number) : Q :=
  (let asked :=
     match raw with
     | Finite q => q
     | _ => min c + (max c - min c) / 2
     end in
   let within :=
     if Qle_bool asked (min c) then min c
     else if Qle_bool (max c) asked then max c
     else asked in
   Qred (round_to_step (min c) (max c) (step c) within))%Q.

(** A slider set to [raw]: the element takes its value and fires [onChange],
    whose handler stores [parseFloat(e.target.value)], the number the element
    then holds.  This is for the sliders of the six keys of [configs]; a key
    has its slider when it is an entry of [parameters]. *)
Definition slide (key : string) (raw : number) (prev : value) : option value :=
  match configs !! key with
  | Some c =>
      if bool_decide (is_Some (own_properties prev !! key))
      then Some (onChange key (Finite (range_value c raw)) prev)
      else None
  | None => None
  end.

(** Every range of [configs] has a positive step and is a whole number of
    steps long. *)
Definition steps (c : config) : Z := Qfloor ((max c - min c) / step c).

Definition aligned (c : config) : bool :=
  negb (Qle_bool (step c) 0)
  && (0 <=? steps c)%Z
  && Qeq_bool (max c) (min c + inject_Z (steps c) * step c).

(** The updaters of the two carousel buttons; [len] is [responses.length]. *)
Definition previous (len : nat) (prev : Z) : Z :=
  if (0 <? prev)%Z then (prev - 1)%Z else (Z.of_nat len - 1)%Z.

Definition next (len : nat) (prev : Z) : Z :=
  if (prev <? Z.of_nat len - 1)%Z then (prev + 1)%Z else 0%Z.

(** [responses[currentResponseIndex]] *)
Definition current (s : state) : option response :=
  if (currentResponseIndex s <? 0)%Z then None
  else responses s !! Z.to_nat (currentResponseIndex s).

(** A value React can render as a child ([{value}], [{content}]): anything
    but an object; an array is rendered element by element. *)
Fixpoint renderable (v : value) : bool :=
  match v with
  | VObj _ => false
  | VArr items => forallb renderable items
  | _ => true
  end.

(** The sliders can be rendered: [Object.entries(parameters)] does not throw
    ([parameters] is neither [null] nor [undefined]), and the value shown
    beside each slider ([Current: {value}]) is one React can render.  The
    entries for which no slider is rendered are not looked at. *)
Definition sliders_render (parameters : value) : bool :=
  negb (nullish parameters)
  && forallb (fun entry => implb (config_found (fst entry)) (renderable (snd entry)))
       (map_to_list (own_properties parameters)).

(** The carousel can be rendered: the content of the record shown, if there
    is one, is a value React can render. *)
Definition record_renders (s : state) : bool :=
  match current s with
  | Some r => renderable (r_content r)
  | None => true
  end.

(** The page can be rendered; when it cannot, the render throws and the page
    is unmounted. *)
Definition renders (s : state) : bool :=
  sliders_render (parameters s) && record_renders s.

(** [disabled={isLoading || !message.trim()}] *)
Definition submit_disabled (s : state) : bool :=
  isLoading s || negb (ToBoolean (VStr (trim (message s)))).

(** ** The page *)

(** The component together with what is pending around it: the calls of
    [handleSubmit] in flight (oldest first), the number of [loadDefaults]
    calls in flight, whether the [checkHealth] call made on mount is still in
    flight, and the alerts shown so far (latest first). *)
Record page := {
  cells : state;
  submissions : list submission;
  defaults_pending : nat;
  health_pending : bool;
  alerts : list string
}.

Definition initial_page : page :=
  {| cells := initial_state; submissions := []; defaults_pending := 0;
     health_pending := true; alerts := [] |}.

Definition with_cells (s : state) (p : page) : page :=
  {| cells := s; submissions := submissions p; defaults_pending := defaults_pending p;
     health_pending := health_pending p; alerts := alerts p |}.

(** What can happen to the page of a signed-in user. *)
Inductive event :=
| Typed (text : string)           (* the textarea's onChange *)
| SubmitForm                      (* the form's onSubmit, through the submit button *)
| Completed (i : nat) (o : fetched) (now : Z) (stamp : string)
                                  (* the request of the i-th call in flight settles *)
| ResetClicked                    (* the Reset to Defaults button *)
| DefaultsArrived (o : fetched)   (* a defaults request settles *)
| HealthArrived (o : fetched)     (* the health request settles *)
| Slid (key : string) (raw : number)  (* a slider's onChange *)
| PreviousClicked
| NextClicked
| DotClicked (index : nat).

(** [fire p e] is the page after [e], or [None] when [e] cannot happen in
    [p]: the control is disabled or not rendered, or no such request is in
    flight.  (A request in flight is let settle on a page that no longer
    renders as well, and a slider's handler is let run with any number,
    while the range input hands it those of [slide] only: this only adds
    pages to those that can be reached.) *)
Definition fire `{Engine} (p : page) (e : event) : option page :=
  let s := cells p in
  match e with
  | Typed text =>
      if renders s && negb (isLoading s) then Some (with_cells (setMessage text s) p)
      else None
  | SubmitForm =>
      if renders s && negb (submit_disabled s) then
        match handleSubmit s with
        | (s', Some c) =>
            Some {| cells := s'; submissions := submissions p ++ [c];
                    defaults_pending := defaults_pending p;
                    health_pending := health_pending p; alerts := alerts p |}
        | (s', None) => Some (with_cells s' p)
        end
      else None
  | Completed i o now stamp =>
      match submissions p !! i with
      | Some c =>
          Some {| cells := handleSubmit_settled c o now stamp s;
                  submissions := delete i (submissions p);
                  defaults_pending := defaults_pending p;
                  health_pending := health_pending p; alerts := alerts p |}
      | None => None
      end
  | ResetClicked =>
      if renders s then
        Some {| cells := s; submissions := submissions p;
                defaults_pending := S (defaults_pending p);
                health_pending := health_pending p; alerts := alerts p |}
      else None
  | DefaultsArrived o =>
      match defaults_pending p with
      | S n =>
          let (s', text) := loadDefaults o s in
          Some {| cells := s'; submissions := submissions p; defaults_pending := n;
                  health_pending := health_pending p; alerts := text :: alerts p |}
      | O => None
      end
  | HealthArrived o =>
      if health_pending p then
        Some {| cells := checkHealth o s; submissions := submissions p;
                defaults_pending := defaults_pending p;
                health_pending := false; alerts := alerts p |}
      else None
  | Slid key raw =>
      if renders s && has_slider (parameters s) key then
        Some (with_cells (setParameters (onChange key raw) s) p)
      else None
  | PreviousClicked =>
      if renders s && Nat.ltb 1 (length (responses s)) then
        Some (with_cells (setCurrentResponseIndex (previous (length (responses s))) s) p)
      else None
  | NextClicked =>
      if renders s && Nat.ltb 1 (length (responses s)) then
        Some (with_cells (setCurrentResponseIndex (next (length (responses s))) s) p)
      else None
  | DotClicked index =>
      if renders s && Nat.ltb 1 (length (responses s))
         && Nat.ltb index (length (responses s)) then
        Some (with_cells (setCurrentResponseIndex (fun _ => Z.of_nat index) s) p)
      else None
  end.

(** The page after a sequence of events, each of which must be able to
    happen. *)
Fixpoint run `{Engine} (p : page) (es : list event) : option page :=
  match es with
  | [] => Some p
  | e :: es =>
      match fire p e with
      | Some p' => run p' es
      | None => None
      end
  end.

(** The prompts of the submissions accepted along [es], in the order they
    were accepted. *)
Fixpoint accepted `{Engine} (p : page) (es : list event) : list string :=
  match es with
  | [] => []
  | e :: es =>
      match fire p e with
      | Some p' =>
          match e with
          | SubmitForm => message (cells p) :: accepted p' es
          | _ => accepted p' es
          end
      | None => []
      end
  end.

(** The carousel invariant. *)
Definition index_in_range (s : state) : Prop :=
  (0 < length (responses s))%nat ->
  (0 <= currentResponseIndex s < Z.of_nat (length (responses s)))%Z.

(** At most one call of [handleSubmit] is in flight, and [isLoading] says
    whether one is. *)
Definition one_in_flight (p : page) : Prop :=
  (submissions p = [] /\ isLoading (cells p) = false)
  \/ (exists c, submissions p = [c] /\ isLoading (cells p) = true).

(** The prompts of the records in [responses], oldest first, followed by the
    prompts of the calls in flight. *)
Definition prompts_in_order (p : page) : list string :=
  rev (map r_prompt (responses (cells p))) ++ map sub_message (submissions p).

(** What an event does to the history and to the calls in flight. *)
Inductive effect `{Engine} (p p' : page) : event -> Prop :=
| effect_accept :
    isLoading (cells p) = false ->
    responses (cells p') = responses (cells p) ->
    currentResponseIndex (cells p') = currentResponseIndex (cells p) ->
    isLoading (cells p') = true ->
    (exists c, sub_message c = message (cells p)
               /\ submissions p' = (submissions p ++ [c])%list) ->
    effect p p' SubmitForm
| effect_settle i o now stamp c :
    submissions p !! i = Some c ->
    responses (cells p') = record_of c o now stamp :: responses (cells p) ->
    currentResponseIndex (cells p') = 0%Z ->
    isLoading (cells p') = false ->
    submissions p' = delete i (submissions p) ->
    effect p p' (Completed i o now stamp)
| effect_browse e :
    e <> SubmitForm ->
    (forall i o now stamp, e <> Completed i o now stamp) ->
    responses (cells p') = responses (cells p) ->
    isLoading (cells p') = isLoading (cells p) ->
    submissions p' = submissions p ->
    (currentResponseIndex (cells p') = currentResponseIndex (cells p)
     \/ (1 < length (responses (cells p)))%nat
        /\ (currentResponseIndex (cells p')
            = previous (length (responses (cells p))) (currentResponseIndex (cells p))
            \/ currentResponseIndex (cells p')
               = next (length (responses (cells p))) (currentResponseIndex (cells p))
            \/ exists index, (index < length (responses (cells p)))%nat
                             /\ currentResponseIndex (cells p') = Z.of_nat index)) ->
    effect p p' e.

(** An engine to run examples with (the wording of V8's messages; integers
    are printed in decimal, which is all the examples need). *)
Definition sample_engine : Engine :=
  {| number_to_string := fun q => pretty (Qnum q);
     type_error_message := fun _ base prop =>
       "Cannot read properties of "
       ++ (if base is VNull then "null" else "undefined")
       ++ " (reading '" ++ prop ++ "')";
     to_primitive_error_message := fun _ => "Cannot convert object to primitive value" |}.

(** ** Vocabulary of the statements *)

(** The three ways a completion request can end, as [handleSubmit] tells
    them apart: an HTTP success with a JSON body other than [null]; an HTTP
    failure with a JSON body other than [null]; and everything that lands in
    [catch] (no response, a body that is not JSON, a [null] body). *)
Inductive ending := Success | ApiFailure | TransportFailure.

Definition ending_of (o : fetched) : ending :=
  match o with
  | Responded true (Json data) => if nullish data then TransportFailure else Success
  | Responded false (Json data) => if nullish data then TransportFailure else ApiFailure
  | Responded _ (NotJson _) | Rejected _ => TransportFailure
  end.

(** The message of the error that reaches [catch] in [handleSubmit]. *)
Definition failure_message `{Engine} (o : fetched) : string :=
  match o with
  | Rejected msg | Responded _ (NotJson msg) => msg
  | Responded true (Json data) => type_error_message "data" data "choices"
  | Responded false (Json data) => type_error_message "errorData" data "error"
  end.

(** Clamping as the specification words it: [raw] brought into
    [[lo, hi]]. *)
Definition clamp_spec (lo hi raw : Q) : Q :=
  if negb (Qle_bool lo raw) then lo
  else if negb (Qle_bool raw hi) then hi
  else raw.

(** Sample data for the examples. *)
Definition temperature_range : config :=
  {| min := 0; max := 2; step := 1 # 10; label := "Temperature" |}.

Definition payload_with_content (content : value) : value :=
  VObj {[ "choices" := VArr [VObj {[ "message" := VObj {[ "content" := content ]} ]}] ]}.

Definition payload_with_error (err : value) : value :=
  VObj {[ "error" := err ]}.

Definition sample_submission : submission :=
  {| sub_message := "find a beginner repo";
     sub_parameters := initial_parameters;
     sub_body := requestBody "find a beginner repo" initial_parameters |}.

Definition busy_state : state :=
  setIsLoading true (setMessage "second prompt" initial_state).

(** The page once the prompt "hi" has been typed and submitted. *)
Definition page_in_flight : page :=
  {| cells := setIsLoading true (setMessage "hi" initial_state);
     submissions :=
       [ {| sub_message := "hi"; sub_parameters := initial_parameters;
            sub_body := requestBody "hi" initial_parameters |} ];
     defaults_pending := 0; health_pending := true; alerts := [] |}.

(** Two prompts submitted and answered, the first with a failure, then a
    click on the carousel's next button. *)
Definition sample_session : list event :=
  [ Typed "hi"; SubmitForm; Completed 0 (Rejected "Failed to fetch") 1 "";
    SubmitForm;
    Completed 0 (Responded true (Json (payload_with_content (VStr "hello")))) 2 "";
    NextClicked ].

(** A defaults payload with a known and an unknown key. *)
Definition defaults_with_unknown_key : value :=
  VObj {[ "defaults" :=
            VObj {[ "temperature" := VNum (Finite 1); "foo" := VNum (Finite 3) ]} ]}.

(** A defaults payload whose unknown key holds an object. *)
Definition defaults_with_unknown_object : value :=
  VObj {[ "defaults" :=
            VObj {[ "temperature" := VNum (Finite 1);
                    "foo" := VObj {[ "a" := VNum (Finite 1) ]} ]} ]}.

(** A prompt of a space, a tab, a line feed and a no-break space. *)
Definition blank_prompt : string :=
  String " " (String (ascii_of_nat 9) (String (ascii_of_nat 10)
    (String (ascii_of_nat 194) (String (ascii_of_nat 160) EmptyString)))).

Definition blank_page : page :=
  with_cells (setMessage blank_prompt initial_state) initial_page.

(** ** What the page shows *)

(** [getStatusDisplay]: the text and the classes of the status badge. *)
Record display := {
  text : string;
  className : string
}.

Definition getStatusDisplay (a : ApiStatus) : display :=
  match a with
  | healthy =>
      {| text := "Connected to LLM API ✓"; className := "text-green-600 bg-green-100" |}
  | partial =>
      {| text := "API partially available - LM Studio not connected";
         className := "text-yellow-600 bg-yellow-100" |}
  | error =>
      {| text := "Cannot connect to API server"; className := "text-red-600 bg-red-100" |}
  | checking =>
      {| text := "Checking connection..."; className := "text-gray-600 bg-gray-100" |}
  end.

(** The counter of the carousel, [{currentResponseIndex + 1} of
    {responses.length}], shown when [responses.length > 0]. *)
Definition counter (s : state) : option (Z * nat) :=
  if Nat.ltb 0 (length (responses s))
  then Some ((currentResponseIndex s + 1)%Z, length (responses s))
  else None.

(** The dots under the carousel, rendered when [responses.length > 1]: one
    per record, [true] for the one drawn highlighted
    ([index === currentResponseIndex]). *)
Definition dots (s : state) : list bool :=
  if Nat.ltb 1 (length (responses s))
  then map (fun index => Z.eqb (Z.of_nat index) (currentResponseIndex s))
           (seq 0 (length (responses s)))
  else [].

(** ** Vocabulary of the further statements *)

Definition is_completed (e : event) : bool :=
  match e with
  | Completed _ _ _ _ => true
  | _ => false
  end.

Definition is_defaults_arrived (e : event) : bool :=
  match e with
  | DefaultsArrived _ => true
  | _ => false
  end.

(** While a call is in flight, the textarea holds the prompt the call
    captured, and that prompt is not blank. *)
Definition prompt_kept (p : page) : Prop :=
  forall c, c ∈ submissions p ->
            sub_message c = message (cells p) /\ trim (message (cells p)) <> "".

(** The parameters are an object all of whose values are numbers. *)
Definition numeric (parameters : value) : Prop :=
  exists props,
    parameters = VObj props /\ forall key v, props !! key = Some v -> exists n, v = VNum n.

(** The status is [checking] exactly while the health request is in
    flight. *)
Definition status_settled (p : page) : Prop :=
  if health_pending p then apiStatus (cells p) = checking
  else apiStatus (cells p) <> checking.

(** ** The response viewer

    The [ClaudeGeneration] component: a file is picked, read, parsed when its
    name says JSON, and shown. *)

Module Viewer.

(** The [fileType] cell holds [null], ['json'] or ['text']. *)
Inductive FileType := type_json | type_text.

(** The state cells; [response] starts as [null], [error] and [fileType]
    are [None] when they hold [null]. *)
Record state := {
  response : value;
  loading : bool;
  error : option string;
  fileType : option FileType
}.

Definition initial_state : state :=
  {| response := VNull; loading := false; error := None; fileType := None |}.

Definition setResponse (v : value) (s : state) : state :=
  {| response := v; loading := loading s; error := error s; fileType := fileType s |}.

Definition setLoading (b : bool) (s : state) : state :=
  {| response := response s; loading := b; error := error s; fileType := fileType s |}.

Definition setError (e : option string) (s : state) : state :=
  {| response := response s; loading := loading s; error := e; fileType := fileType s |}.

Definition setFileType (t : option FileType) (s : state) : state :=
  {| response := response s; loading := loading s; error := error s; fileType := t |}.

(** A picked file: its name, and how [file.text()] goes (the text, or the
    message of the error it rejects with). *)
Record file := {
  name : string;
  contents : result string
}.

(** [name.split('.')]: the pieces between the dots, never an empty list. *)
Fixpoint split_dots (s : string) : list string :=
  match s with
  | EmptyString => [EmptyString]
  | String c rest =>
      if Ascii.eqb c "." then EmptyString :: split_dots rest
      else
        match split_dots rest with
        | piece :: pieces => String c piece :: pieces
        | [] => [String c EmptyString]
        end
  end.

(** [pieces.pop()] on the pieces of [split_dots]. *)
Definition pop (pieces : list string) : string := List.last pieces EmptyString.

(** [toLowerCase] on ASCII letters.  The bytes of other characters are left
    as they are; lowering such a character in JavaScript never gives one of
    the letters of "json", so the comparison below comes out the same. *)
Definition lower (c : ascii) : ascii :=
  let n := nat_of_ascii c in
  if Nat.leb 65 n && Nat.leb n 90 then ascii_of_nat (n + 32) else c.

Fixpoint toLowerCase (s : string) : string :=
  match s with
  | EmptyString => EmptyString
  | String c rest => String (lower c) (toLowerCase rest)
  end.

(** [file.name.split('.').pop().toLowerCase()] *)
Definition extension (file_name : string) : string :=
  toLowerCase (pop (split_dots file_name)).

Fixpoint has_dot (s : string) : bool :=
  match s with
  | EmptyString => false
  | String c rest => Ascii.eqb c "." || has_dot rest
  end.

Section Parsing.

(** [JSON.parse]: the parsed value, or the message of the [SyntaxError]. *)
Variable JSON_parse : string -> result value.

(** [handleFileUpload], up to [await file.text()]; [picked] is
    [event.target.files[0]].  With no file nothing is touched. *)
Definition handleFileUpload (picked : option file) (s : state) : state * option file :=
  match picked with
  | None => (s, None)
  | Some f => (setError None (setLoading true s), Some f)
  end.

(** [handleFileUpload] from the [await] on. *)
Definition handleFileUpload_settled (f : file) (s : state) : state :=
  setLoading false
    (catch
       (text <- contents f ;;
        if String.eqb (extension (name f)) "json" then
          jsonData <- JSON_parse text ;;
          Ok (setFileType (Some type_json) (setResponse jsonData s))
        else
          Ok (setFileType (Some type_text) (setResponse (VStr text) s)))
       (fun msg => setError (Some ("Error reading file: " ++ msg)) s)).

(** An upload with nothing happening in between. *)
Definition upload (f : file) (s : state) : state :=
  handleFileUpload_settled f (fst (handleFileUpload (Some f) s)).

End Parsing.

(** [clearResponse] (it also empties the file input, which holds no state of
    the component). *)
Definition clearResponse (s : state) : state :=
  setFileType None (setError None (setResponse VNull s)).

(** What [renderResponse] returns: [null], the JSON panel with the value it
    prints, or the text panel with the value it shows. *)
Inductive panel :=
| NoPanel
| JsonPanel (v : value)
| TextPanel (v : value).

Definition renderResponse (s : state) : panel :=
  if negb (ToBoolean (response s)) then NoPanel
  else
    match fileType s with
    | Some type_json => JsonPanel (response s)
    | _ => TextPanel (response s)
    end.

(** [!response]: the page shows the upload prompt and the instructions,
    and no panel. *)
Definition shows_upload_prompt (s : state) : bool := negb (ToBoolean (response s)).

(** What the response area, [{response && (<div>{renderResponse()}</div>)}],
    puts on the page.  With a truthy [response] it is the panel.  Otherwise
    the expression is [response] itself, and React prints it when it is a
    number, while it shows nothing for [null], [undefined], [false] and the
    empty string. *)
Inductive shown :=
| Nothing
| Printed (n : number)
| Panel (p : panel).

Definition response_area (s : state) : shown :=
  if ToBoolean (response s) then Panel (renderResponse s)
  else
    match response s with
    | VNum n => Printed n
    | _ => Nothing
    end.

(** The cells agree: with no file type there is no response, and a text
    file's response is its text. *)
Definition cells_agree (s : state) : Prop :=
  match fileType s with
  | None => response s = VNull
  | Some type_text => exists text, response s = VStr text
  | Some type_json => True
  end.

(** A [JSON.parse] for the examples: it knows the texts [null], [{}] and
    [0]. *)
Definition sample_parse (text : string) : result value :=
  if String.eqb text "null" then Ok VNull
  else if String.eqb text "{}" then Ok (VObj ∅)
  else if String.eqb text "0" then Ok (VNum (Finite 0))
  else Throw "Unexpected token".

End Viewer.

(** * Properties *)

(** ** Basic facts *)

Lemma nullish_false_read `{Engine} expr v name :
  nullish v = false -> read expr v name = Ok (get v name).
Proof. intros Hv. unfold read. now rewrite Hv. Qed.

Lemma nullish_true_read `{Engine} expr v name :
  nullish v = true -> read expr v name = Throw (type_error_message expr v name).
Proof. intros Hv. unfold read. now rewrite Hv. Qed.

Lemma or_else_truthy a b : ToBoolean a = true -> or_else a b = a.
Proof. intros Ha. unfold or_else. now rewrite Ha. Qed.

Lemma or_else_falsy a b : ToBoolean a = false -> or_else a b = b.
Proof. intros Ha. unfold or_else. now rewrite Ha. Qed.

Lemma truthy_string s : s <> "" -> ToBoolean (VStr s) = true.
Proof.
  intros Hs. simpl. destruct (String.eqb_spec s ""); [contradiction | reflexivity].
Qed.

(** [trimStart] has fuel enough: nothing is left to strip from its
    result. *)
Lemma leading_space_shorter s rest :
  leading_space s = Some rest -> (String.length rest < String.length s)%nat.
Proof.
  unfold leading_space.
  destruct s as [| c1 [| c2 [| c3 r3]]];
    repeat match goal with
           | |- context [if ?b then _ else _] => destruct b
           end;
    intros [= <-]; cbn [String.length]; lia.
Qed.

Lemma trimStart_fuel_done fuel : forall s,
  (String.length s <= fuel)%nat -> leading_space (trimStart_fuel fuel s) = None.
Proof.
  induction fuel as [| fuel IH]; intros s Hlen; cbn [trimStart_fuel].
  - destruct s; [reflexivity | cbn in Hlen; lia].
  - destruct (leading_space s) as [rest |] eqn:Hs; [| exact Hs].
    apply IH. apply leading_space_shorter in Hs. lia.
Qed.

Lemma trimStart_done s : leading_space (trimStart s) = None.
Proof. apply trimStart_fuel_done. lia. Qed.

(** The record of a successful completion. *)
Lemma record_of_success `{Engine} c data now stamp :
  nullish data = false ->
  record_of c (Responded true (Json data)) now stamp =
  {| r_id := now; r_prompt := sub_message c;
     r_content :=
       or_else (first_content (get data "choices")) (VStr "No response content");
     r_timestamp := stamp;
     r_parameters := Some (VObj (own_properties (sub_parameters c)));
     r_isError := None |}.
Proof.
  intros Hd. unfold record_of. cbn [await bind catch fst snd json].
  now rewrite (nullish_false_read _ _ _ Hd).
Qed.


(** The record of a completion the service refused: the error record, unless
    the payload's [error] cannot be printed, which lands in [catch]. *)
Lemma record_of_api_failure `{Engine} c errorData now stamp :
  nullish errorData = false ->
  record_of c (Responded false (Json errorData)) now stamp =
  match ToString (or_else (get errorData "error") (VStr "Unknown error")) with
  | Ok text =>
      {| r_id := now; r_prompt := sub_message c;
         r_content := VStr ("Error: " ++ text);
         r_timestamp := stamp;
         r_parameters := None;
         r_isError := Some true |}
  | Throw msg =>
      {| r_id := now; r_prompt := sub_message c;
         r_content := VStr ("Network error: " ++ msg);
         r_timestamp := stamp;
         r_parameters := None;
         r_isError := Some true |}
  end.
Proof.
  intros Hd. unfold record_of. cbn [await bind catch fst snd json].
  rewrite (nullish_false_read _ _ _ Hd). cbn [bind].
  now destruct (ToString (or_else (get errorData "error") (VStr "Unknown error"))).
Qed.

(** The record of a completion that ended in [catch]. *)
Lemma record_of_transport_failure `{Engine} c o now stamp :
  ending_of o = TransportFailure ->
  record_of c o now stamp =
  {| r_id := now; r_prompt := sub_message c;
     r_content := VStr ("Network error: " ++ failure_message o);
     r_timestamp := stamp;
     r_parameters := None;
     r_isError := Some true |}.
Proof.
  destruct o as [msg | [] [data | msg]]; cbn [ending_of]; intros Ho;
    try reflexivity.
  - destruct (nullish data) eqn:Hd; [| discriminate].
    unfold record_of. cbn [await bind catch fst snd json].
    now rewrite (nullish_true_read _ _ _ Hd).
  - destruct (nullish data) eqn:Hd; [| discriminate].
    unfold record_of. cbn [await bind catch fst snd json].
    now rewrite (nullish_true_read _ _ _ Hd).
Qed.

(** Whatever the ending, the record keeps the prompt of its call. *)
Lemma record_of_prompt `{Engine} c o now stamp :
  r_prompt (record_of c o now stamp) = sub_message c.
Proof.
  destruct (ending_of o) eqn:Ho.
  - destruct o as [msg | [] [data | msg]]; cbn in Ho; try discriminate;
      destruct (nullish data) eqn:Hd; try discriminate.
    now rewrite record_of_success.
  - destruct o as [msg | [] [data | msg]]; cbn in Ho; try discriminate;
      destruct (nullish data) eqn:Hd; try discriminate.
    rewrite record_of_api_failure by assumption.
    now destruct (ToString (or_else (get data "error") (VStr "Unknown error"))).
  - now rewrite record_of_transport_failure.
Qed.

(** ** The three-way classification of [handleSubmit] *)

Lemma get_object props name : get (VObj props) name = default VUndefined (props !! name).
Proof. reflexivity. Qed.

(** The content of the first completion of a payload of the expected
    shape. *)
Lemma first_content_present props choice rest msg content :
  props !! "choices" = Some (VArr (VObj choice :: rest)) ->
  choice !! "message" = Some (VObj msg) ->
  msg !! "content" = Some content ->
  first_content (get (VObj props) "choices") = content.
Proof.
  intros Hchoices Hmessage Hcontent. rewrite get_object, Hchoices.
  unfold first_content. cbn. rewrite Hmessage. cbn. now rewrite Hcontent.
Qed.

(** Where the expected field is absent, there is no content. *)
Lemma first_content_absent props :
  props !! "choices" = None
  \/ props !! "choices" = Some (VArr [])
  \/ (exists choice rest,
        props !! "choices" = Some (VArr (VObj choice :: rest))
        /\ (choice !! "message" = None
            \/ exists msg, choice !! "message" = Some (VObj msg)
                           /\ msg !! "content" = None)) ->
  first_content (get (VObj props) "choices") = VUndefined.
Proof.
  rewrite get_object. unfold first_content.
  intros [-> | [-> | (choice & rest & -> & [Hmessage | (msg & Hmessage & Hcontent)])]];
    cbn; try reflexivity.
  - now rewrite Hmessage.
  - rewrite Hmessage. cbn. now rewrite Hcontent.
Qed.

(** C1, as the code has it.  On an HTTP success with a payload of the
    expected shape, the record has no [isError] field and its content is the
    first completion's message content when that is truthy, and the literal
    "No response content" when it is falsy or when the expected field is
    absent.  On an HTTP failure with a structured error body, the record has
    [isError = true] and its content is "Error: " followed by the payload's
    [error] when that is a non-empty string, and "Error: Unknown error" when
    the field is missing or empty.  On a transport-level failure (no
    response, or a body that is not JSON) the record has [isError = true] and
    its content is "Network error: " followed by the message of the
    failure. *)
Theorem handleSubmit_classification `{Engine} (c : submission) (now : Z) (stamp : string) :
  (forall props,
      let r := record_of c (Responded true (Json (VObj props))) now stamp in
      r_isError r = None
      /\ (forall choice rest msg content,
            props !! "choices" = Some (VArr (VObj choice :: rest)) ->
            choice !! "message" = Some (VObj msg) ->
            msg !! "content" = Some content ->
            r_content r = if ToBoolean content then content
                          else VStr "No response content")
      /\ (props !! "choices" = None
          \/ props !! "choices" = Some (VArr [])
          \/ (exists choice rest,
                props !! "choices" = Some (VArr (VObj choice :: rest))
                /\ (choice !! "message" = None
                    \/ exists msg, choice !! "message" = Some (VObj msg)
                                   /\ msg !! "content" = None)) ->
          r_content r = VStr "No response content"))
  /\ (forall props,
        let r := record_of c (Responded false (Json (VObj props))) now stamp in
        r_isError r = Some true
        /\ (forall text, props !! "error" = Some (VStr text) -> text <> "" ->
                         r_content r = VStr ("Error: " ++ text))
        /\ (props !! "error" = None \/ props !! "error" = Some (VStr "") ->
            r_content r = VStr "Error: Unknown error"))
  /\ (forall msg,
        let r := record_of c (Rejected msg) now stamp in
        r_isError r = Some true /\ r_content r = VStr ("Network error: " ++ msg))
  /\ (forall ok msg,
        let r := record_of c (Responded ok (NotJson msg)) now stamp in
        r_isError r = Some true /\ r_content r = VStr ("Network error: " ++ msg)).
Proof.
  split; [| split; [| split]].
  - intros props r. subst r. rewrite record_of_success by reflexivity.
    cbn [r_isError r_content]. split; [reflexivity |]. split.
    + intros choice rest msg content Hchoices Hmessage Hcontent.
      now rewrite (first_content_present _ _ _ _ _ Hchoices Hmessage Hcontent).
    + intros Habsent. now rewrite (first_content_absent _ Habsent).
  - intros props r. subst r. rewrite record_of_api_failure by reflexivity.
    rewrite get_object. split; [| split].
    + now destruct (ToString _).
    + intros text Herror Htext. rewrite Herror. cbn [default].
      now rewrite (or_else_truthy _ _ (truthy_string _ Htext)).
    + intros [-> | ->]; reflexivity.
  - intros msg r. subst r. split; reflexivity.
  - intros ok msg r. subst r. destruct ok; split; reflexivity.
Qed.

(** C1 at the two scenarios of the specification: HTTP 200 with the
    completion "Try this repo: acme/widget", and HTTP 500 with
    [{error: "model not loaded"}]. *)
Lemma handleSubmit_classification_witness :
  (r_isError
     (@record_of sample_engine sample_submission
        (Responded true (Json (payload_with_content (VStr "Try this repo: acme/widget"))))
        0 "")
   = None
   /\ r_content
        (@record_of sample_engine sample_submission
           (Responded true (Json (payload_with_content (VStr "Try this repo: acme/widget"))))
           0 "")
      = VStr "Try this repo: acme/widget")
  /\ r_isError
       (@record_of sample_engine sample_submission
          (Responded false (Json (payload_with_error (VStr "model not loaded")))) 0 "")
     = Some true
  /\ r_content
       (@record_of sample_engine sample_submission
          (Responded false (Json (payload_with_error (VStr "model not loaded")))) 0 "")
     = VStr "Error: model not loaded".
Proof.
  destruct (@handleSubmit_classification sample_engine sample_submission 0%Z "")
    as (Hsuccess & Hapi & _).
  split; [| split].
  - destruct (Hsuccess
                {[ "choices" :=
                     VArr [VObj {[ "message" :=
                                     VObj {[ "content" :=
                                               VStr "Try this repo: acme/widget" ]} ]}] ]})
      as (Hflag & Hcontent & _).
    split; [exact Hflag |].
    exact (Hcontent
             {[ "message" := VObj {[ "content" := VStr "Try this repo: acme/widget" ]} ]}
             [] {[ "content" := VStr "Try this repo: acme/widget" ]}
             (VStr "Try this repo: acme/widget") eq_refl eq_refl eq_refl).
  - destruct (Hapi {[ "error" := VStr "model not loaded" ]}) as (Hflag & _). exact Hflag.
  - destruct (Hapi {[ "error" := VStr "model not loaded" ]}) as (_ & Htext & _).
    apply (Htext "model not loaded"); [reflexivity | discriminate].
Defined.

(** C1 as stated fails: an HTTP success whose first completion carries the
    content [""] (the field is present) gives a record whose content is not
    that content but "No response content", and the record has no [isError]
    field at all; an HTTP failure whose [error] is [""] (the field is
    present) gives "Error: Unknown error", not "Error: ". *)
Lemma handleSubmit_classification_counterexample :
  payload_with_content (VStr "")
  = VObj {[ "choices" := VArr [VObj {[ "message" := VObj {[ "content" := VStr "" ]} ]}] ]}
  /\ r_content
       (@record_of sample_engine sample_submission
          (Responded true (Json (payload_with_content (VStr "")))) 0 "")
     = VStr "No response content"
  /\ r_isError
       (@record_of sample_engine sample_submission
          (Responded true (Json (payload_with_content (VStr "")))) 0 "")
     = None
  /\ payload_with_error (VStr "") = VObj {[ "error" := VStr "" ]}
  /\ r_content
       (@record_of sample_engine sample_submission
          (Responded false (Json (payload_with_error (VStr "")))) 0 "")
     = VStr "Error: Unknown error".
Proof. repeat split; vm_compute; reflexivity. Qed.

(** C10.  On an HTTP success whose JSON body is not [null], whenever the
    first completion's message content is falsy (the empty string, [null],
    and equally [0], [false] or an absent field) the record's content is the
    literal "No response content". *)
Theorem falsy_content_falls_back `{Engine}
    (c : submission) (data : value) (now : Z) (stamp : string) :
  nullish data = false ->
  ToBoolean (first_content (get data "choices")) = false ->
  r_content (record_of c (Responded true (Json data)) now stamp)
  = VStr "No response content".
Proof.
  intros Hd Hfalsy. rewrite (record_of_success _ _ _ _ Hd). cbn [r_content].
  now apply or_else_falsy.
Qed.

(** C10 at the two payloads the claim names: content [""] and content
    [null], both present. *)
Lemma falsy_content_falls_back_witness :
  r_content
    (@record_of sample_engine sample_submission
       (Responded true (Json (payload_with_content (VStr "")))) 0 "")
  = VStr "No response content"
  /\ r_content
       (@record_of sample_engine sample_submission
          (Responded true (Json (payload_with_content VNull))) 0 "")
     = VStr "No response content".
Proof.
  split.
  - apply (@falsy_content_falls_back sample_engine); reflexivity.
  - apply (@falsy_content_falls_back sample_engine); reflexivity.
Defined.

(** ** One record per submission, and its snapshot *)

Lemma handleSubmit_settled_responses `{Engine} c o now stamp s :
  responses (handleSubmit_settled c o now stamp s)
  = record_of c o now stamp :: responses s.
Proof. reflexivity. Qed.

Lemma handleSubmit_settled_index `{Engine} c o now stamp s :
  currentResponseIndex (handleSubmit_settled c o now stamp s) = 0%Z.
Proof. reflexivity. Qed.

Lemma handleSubmit_settled_isLoading `{Engine} c o now stamp s :
  isLoading (handleSubmit_settled c o now stamp s) = false.
Proof. reflexivity. Qed.

Lemma handleSubmit_settled_parameters `{Engine} c o now stamp s :
  parameters (handleSubmit_settled c o now stamp s) = parameters s.
Proof. reflexivity. Qed.

Lemma record_of_parameters `{Engine} c o now stamp :
  r_parameters (record_of c o now stamp) =
  match ending_of o with
  | Success => Some (VObj (own_properties (sub_parameters c)))
  | ApiFailure | TransportFailure => None
  end.
Proof.
  destruct (ending_of o) eqn:Ho.
  - destruct o as [msg | [] [data | msg]]; cbn in Ho; try discriminate;
      destruct (nullish data) eqn:Hd; try discriminate.
    now rewrite record_of_success.
  - destruct o as [msg | [] [data | msg]]; cbn in Ho; try discriminate;
      destruct (nullish data) eqn:Hd; try discriminate.
    rewrite record_of_api_failure by assumption.
    now destruct (ToString (or_else (get data "error") (VStr "Unknown error"))).
  - now rewrite record_of_transport_failure.
Qed.

(** C3, as the code has it.  However the request ends, the settled call puts
    exactly one record in front of [responses], carrying the prompt of the
    call.  The record of a success carries a copy of the parameters the call
    captured when it was made (the very object when they are an object); the
    records of both kinds of failure have no [parameters] field. *)
Theorem one_record_per_submission `{Engine}
    (s0 s : state) (c : submission) (o : fetched) (now : Z) (stamp : string) :
  let r := record_of c o now stamp in
  responses (handleSubmit_settled c o now stamp s) = r :: responses s
  /\ length (responses (handleSubmit_settled c o now stamp s)) = S (length (responses s))
  /\ r_prompt r = sub_message c
  /\ r_parameters r =
     match ending_of o with
     | Success => Some (VObj (own_properties (sub_parameters c)))
     | ApiFailure | TransportFailure => None
     end
  /\ (snd (handleSubmit s0) = Some c ->
      sub_parameters c = parameters s0
      /\ forall props, parameters s0 = VObj props ->
                       ending_of o = Success -> r_parameters r = Some (parameters s0)).
Proof.
  intros r. subst r.
  split; [reflexivity |]. split; [reflexivity |].
  split; [apply record_of_prompt |]. split; [apply record_of_parameters |].
  unfold handleSubmit.
  destruct (negb (ToBoolean (VStr (trim (message s0))))); cbn [snd]; [discriminate |].
  intros [= <-]. cbn [sub_parameters]. split; [reflexivity |].
  intros props Hp Ho. rewrite record_of_parameters, Ho. cbn [sub_parameters].
  now rewrite Hp.
Qed.

(** C3 for a prompt submitted from the initial state and answered with a
    completion. *)
Lemma one_record_per_submission_witness :
  r_parameters
    (@record_of sample_engine sample_submission
       (Responded true (Json (payload_with_content (VStr "Try this repo: acme/widget"))))
       0 "")
  = Some initial_parameters.
Proof.
  pose proof (@one_record_per_submission sample_engine
                (setMessage "find a beginner repo" initial_state) initial_state
                sample_submission
                (Responded true (Json (payload_with_content (VStr "Try this repo: acme/widget"))))
                0%Z "") as Hrec.
  cbv zeta in Hrec. destruct Hrec as (_ & _ & _ & _ & Hsnap).
  destruct (Hsnap eq_refl) as (_ & Hcopy).
  exact (Hcopy _ eq_refl eq_refl).
Defined.

(** C3 as stated fails: the record of an HTTP 500 answer, and the record of a
    request that never got an answer, carry no snapshot of the parameters. *)
Lemma one_record_per_submission_counterexample :
  r_parameters
    (@record_of sample_engine sample_submission
       (Responded false (Json (payload_with_error (VStr "model not loaded")))) 0 "")
  = None
  /\ r_parameters
       (@record_of sample_engine sample_submission (Rejected "Failed to fetch") 0 "")
     = None.
Proof. split; vm_compute; reflexivity. Qed.

(** ** The sliders *)

Lemma onChange_stores key raw prev : get (onChange key raw prev) key = VNum raw.
Proof. unfold onChange, get. now rewrite lookup_insert_eq. Qed.

Lemma onChange_others key raw prev other :
  other <> key ->
  own_properties (onChange key raw prev) !! other = own_properties prev !! other.
Proof.
  intros Hne. unfold onChange. cbn [own_properties].
  rewrite lookup_insert_ne; [reflexivity | congruence].
Qed.

(** The rounding of the range input: the whole number of steps nearest to
    a number of the range lies in the range, within half a step of it. *)
Lemma floor_facts lo hi st N q :
  (0 < st)%Q -> (hi == lo + inject_Z N * st)%Q -> (lo <= q)%Q -> (q <= hi)%Q ->
  let n := Qfloor ((q - lo) / st + (1 # 2)) in
  (0 <= n <= N)%Z
  /\ (q - (1 # 2) * st < lo + inject_Z n * st)%Q
  /\ (lo + inject_Z n * st <= q + (1 # 2) * st)%Q.
Proof.
  intros Hst Hgrid Hlo Hhi n.
  assert (Hx : (((q - lo) / st + (1 # 2)) * st == q - lo + (1 # 2) * st)%Q).
  { field. lra. }
  pose proof (Qfloor_le ((q - lo) / st + (1 # 2))) as Hfl.
  pose proof (Qlt_floor ((q - lo) / st + (1 # 2))) as Hfu.
  fold n in Hfl, Hfu. clearbody n.
  assert (H1 : (inject_Z n * st <= q - lo + (1 # 2) * st)%Q).
  { rewrite <- Hx. apply Qmult_le_compat_r; [exact Hfl | lra]. }
  assert (H2 : (q - lo + (1 # 2) * st < inject_Z (n + 1) * st)%Q).
  { rewrite <- Hx. apply Qmult_lt_compat_r; [exact Hst | exact Hfu]. }
  assert (H3 : (inject_Z (n + 1) * st == inject_Z n * st + st)%Q).
  { rewrite inject_Z_plus. change (inject_Z 1) with 1%Q. ring. }
  rewrite H3 in H2.
  clear Hx Hfl Hfu.
  split; [| split; lra].
  split.
  - apply Z.lt_succ_r. rewrite Zlt_Qlt.
    assert (0 < inject_Z (n + 1) * st)%Q by (rewrite H3; lra).
    unfold Z.succ.
    destruct (Qlt_le_dec 0 (inject_Z (n + 1))) as [Hp | Hn]; [exact Hp |].
    exfalso.
    assert (inject_Z (n + 1) * st <= 0 * st)%Q by (apply Qmult_le_compat_r; lra).
    lra.
  - apply Z.lt_succ_r. rewrite Zlt_Qlt. unfold Z.succ. rewrite inject_Z_plus.
    change (inject_Z 1) with 1%Q.
    destruct (Qlt_le_dec (inject_Z n) (inject_Z N + 1)) as [Hp | Hn]; [exact Hp |].
    exfalso.
    assert ((inject_Z N + 1) * st <= inject_Z n * st)%Q
      by (apply Qmult_le_compat_r; lra).
    assert ((inject_Z N + 1) * st == inject_Z N * st + st)%Q by ring.
    lra.
Qed.

Lemma round_to_step_facts lo hi st N q :
  (0 < st)%Q -> (hi == lo + inject_Z N * st)%Q -> (lo <= q)%Q -> (q <= hi)%Q ->
  exists n : Z,
    (0 <= n <= N)%Z
    /\ (round_to_step lo hi st q == lo + inject_Z n * st)%Q
    /\ (q - (1 # 2) * st < round_to_step lo hi st q)%Q
    /\ (round_to_step lo hi st q <= q + (1 # 2) * st)%Q.
Proof.
  intros Hst Hgrid Hlo Hhi.
  destruct (floor_facts lo hi st N q Hst Hgrid Hlo Hhi) as ([Hn0 HnN] & Hlow & Hup).
  unfold round_to_step.
  set (n := Qfloor ((q - lo) / st + (1 # 2))) in *. clearbody n.
  assert (H1 : (inject_Z n * st <= inject_Z N * st)%Q).
  { apply Qmult_le_compat_r; [| lra]. now rewrite <- Zle_Qle. }
  assert (Hle : (lo + inject_Z n * st <= hi)%Q) by lra.
  apply Qle_bool_iff in Hle. rewrite Hle.
  exists n. split; [lia |]. split; [reflexivity |]. split; assumption.
Qed.

(** Two numbers of the grid less than a step apart are the same. *)
Lemma grid_points_apart lo st n m :
  (0 < st)%Q ->
  (lo + inject_Z m * st - (1 # 2) * st < lo + inject_Z n * st)%Q ->
  (lo + inject_Z n * st <= lo + inject_Z m * st + (1 # 2) * st)%Q ->
  n = m.
Proof.
  intros Hst Hlow Hup.
  destruct (Z.lt_trichotomy n m) as [Hlt | [Heq | Hgt]]; [| exact Heq |]; exfalso.
  - assert (H : (inject_Z (n + 1) * st <= inject_Z m * st)%Q).
    { apply Qmult_le_compat_r; [| lra]. rewrite <- Zle_Qle. lia. }
    rewrite inject_Z_plus in H. change (inject_Z 1) with 1%Q in H.
    assert ((inject_Z n + 1) * st == inject_Z n * st + st)%Q by ring. lra.
  - assert (H : (inject_Z (m + 1) * st <= inject_Z n * st)%Q).
    { apply Qmult_le_compat_r; [| lra]. rewrite <- Zle_Qle. lia. }
    rewrite inject_Z_plus in H. change (inject_Z 1) with 1%Q in H.
    assert ((inject_Z m + 1) * st == inject_Z m * st + st)%Q by ring. lra.
Qed.

(** The six ranges of [configs]. *)
Lemma configs_aligned key c : configs !! key = Some c -> aligned c = true.
Proof.
  revert key c. change (map_Forall (fun _ c => aligned c = true) configs).
  apply (bool_decide_unpack _). vm_compute. reflexivity.
Qed.

Lemma aligned_facts c :
  aligned c = true ->
  (0 < step c)%Q /\ (0 <= steps c)%Z
  /\ (max c == min c + inject_Z (steps c) * step c)%Q
  /\ (min c <= max c)%Q.
Proof.
  unfold aligned. intros [[Hst Hsteps]%andb_prop Hgrid]%andb_prop.
  apply negb_true_iff in Hst. apply Z.leb_le in Hsteps. apply Qeq_bool_iff in Hgrid.
  assert (Hpos : (0 < step c)%Q).
  { destruct (Qlt_le_dec 0 (step c)) as [Hp | Hn]; [exact Hp |].
    apply Qle_bool_iff in Hn. congruence. }
  split; [exact Hpos |]. split; [exact Hsteps |]. split; [exact Hgrid |].
  assert (0 * step c <= inject_Z (steps c) * step c)%Q.
  { apply Qmult_le_compat_r; [| lra]. change 0%Q with (inject_Z 0). now rewrite <- Zle_Qle. }
  lra.
Qed.

Lemma Qle_bool_false x y : Qle_bool x y = false -> (y < x)%Q.
Proof.
  intros Hf. apply Qnot_le_lt. intros Hle. apply Qle_bool_iff in Hle. congruence.
Qed.

Ltac by_cases_Qle :=
  repeat match goal with
  | |- context [Qle_bool ?x ?y] =>
      let E := fresh "E" in
      destruct (Qle_bool x y) eqn:E;
      [apply Qle_bool_iff in E | apply Qle_bool_false in E]
  end; cbn [negb].

(** What the element does below [min] and above [max] is the clamping of the
    specification. *)
Lemma within_is_clamp lo hi asked :
  (lo <= hi)%Q ->
  ((if Qle_bool asked lo then lo else if Qle_bool hi asked then hi else asked)
   == clamp_spec lo hi asked)%Q.
Proof. intros Hle. unfold clamp_spec. by_cases_Qle; lra. Qed.

Lemma clamp_spec_bounds lo hi asked :
  (lo <= hi)%Q ->
  (lo <= clamp_spec lo hi asked)%Q /\ (clamp_spec lo hi asked <= hi)%Q.
Proof. intros Hle. unfold clamp_spec. by_cases_Qle; lra. Qed.

Lemma range_value_facts c raw :
  aligned c = true ->
  let asked := match raw with Finite q => q | _ => (min c + (max c - min c) / 2)%Q end in
  let clamped := clamp_spec (min c) (max c) asked in
  exists n : Z,
    (0 <= n <= steps c)%Z
    /\ (range_value c raw == min c + inject_Z n * step c)%Q
    /\ (clamped - (1 # 2) * step c < range_value c raw)%Q
    /\ (range_value c raw <= clamped + (1 # 2) * step c)%Q.
Proof.
  intros (Hst & Hsteps & Hgrid & Hle)%aligned_facts asked clamped.
  unfold range_value. fold asked.
  pose proof (within_is_clamp (min c) (max c) asked Hle) as Hwithin.
  fold clamped in Hwithin.
  set (within := if Qle_bool asked (min c) then _ else _) in *. clearbody within.
  destruct (clamp_spec_bounds (min c) (max c) asked Hle) as [Hlo Hhi].
  fold clamped in Hlo, Hhi.
  destruct (round_to_step_facts (min c) (max c) (step c) (steps c) within Hst Hgrid)
    as (n & Hn & Hon & Hlow & Hup); [lra | lra |].
  exists n. rewrite Qred_correct. split; [exact Hn |]. split; [exact Hon |].
  split; lra.
Qed.

(** C4, through the slider.  The handler itself stores the number the range
    input holds, and it is the input that brings the number asked for into
    the range of the key: what is stored lies in [[min, max]], a whole number
    of steps above [min], and within half a step of the clamped number.  So
    a number at or above [max] is stored as [max], one at or below [min] as
    [min], and one of the range that is a whole number of steps above [min]
    as itself. *)
Theorem slide_stores_range_value (key : string) (c : config) (raw : number) (prev : value) :
  configs !! key = Some c ->
  is_Some (own_properties prev !! key) ->
  let v := range_value c raw in
  slide key raw prev = Some (VObj (<[key := VNum (Finite v)]> (own_properties prev)))
  /\ (min c <= v)%Q /\ (v <= max c)%Q
  /\ (exists n : Z, (0 <= n)%Z /\ (v == min c + inject_Z n * step c)%Q)
  /\ (forall q, raw = Finite q ->
        (clamp_spec (min c) (max c) q - (1 # 2) * step c < v)%Q
        /\ (v <= clamp_spec (min c) (max c) q + (1 # 2) * step c)%Q
        /\ ((max c <= q)%Q -> (v == max c)%Q)
        /\ ((q <= min c)%Q -> (v == min c)%Q)
        /\ (forall n : Z,
              (q == min c + inject_Z n * step c)%Q ->
              (min c <= q)%Q -> (q <= max c)%Q -> (v == q)%Q)).
Proof.
  intros Hc Hown v.
  pose proof (configs_aligned key c Hc) as Haligned.
  destruct (aligned_facts c Haligned) as (Hst & Hsteps & Hgrid & Hle).
  destruct (range_value_facts c raw Haligned) as (n & [Hn0 HnN] & Hon & Hlow & Hup).
  fold v in Hon, Hlow, Hup.
  assert (Hmax : (inject_Z n * step c <= inject_Z (steps c) * step c)%Q).
  { apply Qmult_le_compat_r; [| lra]. now rewrite <- Zle_Qle. }
  assert (Hmin : (0 * step c <= inject_Z n * step c)%Q).
  { apply Qmult_le_compat_r; [| lra]. change 0%Q with (inject_Z 0). now rewrite <- Zle_Qle. }
  split.
  { unfold slide. rewrite Hc. now rewrite bool_decide_eq_true_2. }
  split; [lra |]. split; [lra |].
  split; [exists n; split; [lia | exact Hon] |].
  intros q ->. cbn in Hlow, Hup.
  split; [exact Hlow |]. split; [exact Hup |].
  assert (Hsnap : forall m : Z,
             (clamp_spec (min c) (max c) q == min c + inject_Z m * step c)%Q ->
             (v == clamp_spec (min c) (max c) q)%Q).
  { intros m Hm. rewrite Hm in Hlow, Hup. rewrite Hon in Hlow, Hup.
    rewrite (grid_points_apart _ _ n m Hst Hlow Hup) in Hon. now rewrite Hon, Hm. }
  split; [| split].
  - intros Hq. rewrite (Hsnap (steps c)).
    + unfold clamp_spec. by_cases_Qle; lra.
    + rewrite <- Hgrid. unfold clamp_spec. by_cases_Qle; lra.
  - intros Hq. rewrite (Hsnap 0%Z).
    + unfold clamp_spec. by_cases_Qle; lra.
    + change (inject_Z 0) with 0%Q. unfold clamp_spec. by_cases_Qle; lra.
  - intros m Hm Hlo Hhi. rewrite (Hsnap m).
    + unfold clamp_spec. by_cases_Qle; lra.
    + rewrite <- Hm. unfold clamp_spec. by_cases_Qle; lra.
Qed.

(** C4 at [temperature], whose range is [[0, 2]], set to 5: 2 is stored. *)
Lemma slide_stores_range_value_witness :
  range_value temperature_range (Finite 5) = 2%Q
  /\ slide "temperature" (Finite 5) initial_parameters
     = Some (VObj (<["temperature" := VNum (Finite 2)]> (own_properties initial_parameters)))
  /\ (0 <= range_value temperature_range (Finite 5))%Q
  /\ (range_value temperature_range (Finite 5) <= 2)%Q.
Proof.
  split; [vm_compute; reflexivity |].
  destruct (slide_stores_range_value "temperature" temperature_range (Finite 5)
              initial_parameters) as (Hslide & Hlo & Hhi & _);
    [vm_compute; reflexivity | eexists; vm_compute; reflexivity |].
  split; [exact Hslide |]. split; [exact Hlo | exact Hhi].
Defined.

(** C4 as stated fails within the range: [temperature] set to 0.26 is stored
    as 0.3, the nearest step, while clamping leaves 0.26. *)
Lemma slide_stores_range_value_counterexample :
  slide "temperature" (Finite (13 # 50)) initial_parameters
  = Some (VObj (<["temperature" := VNum (Finite (3 # 10))]> (own_properties initial_parameters)))
  /\ clamp_spec 0 2 (13 # 50) = (13 # 50)%Q
  /\ ~ (3 # 10 == 13 # 50)%Q.
Proof. split; [vm_compute; reflexivity |]. split; [vm_compute; reflexivity | discriminate]. Qed.

(** ** [loadDefaults] *)

(** A JSON body other than [null] replaces the whole parameter set by its
    [defaults], whatever the HTTP status. *)
Lemma loadDefaults_replaces `{Engine} ok data s :
  nullish data = false ->
  loadDefaults (Responded ok (Json data)) s
  = (setParameters (fun _ => get data "defaults") s, "Parameters reset to defaults!").
Proof.
  intros Hd. unfold loadDefaults. cbn [await bind catch snd json].
  now rewrite (nullish_false_read _ _ _ Hd).
Qed.

(** When the request is rejected, or the body is not JSON, the state is left
    as it was and the alert reports the failure. *)
Lemma loadDefaults_rejected `{Engine} msg s :
  loadDefaults (Rejected msg) s = (s, "Failed to load defaults: " ++ msg).
Proof. reflexivity. Qed.

Lemma loadDefaults_not_json `{Engine} ok msg s :
  loadDefaults (Responded ok (NotJson msg)) s = (s, "Failed to load defaults: " ++ msg).
Proof. reflexivity. Qed.

(** C5 fails on the code.  A defaults endpoint that answers HTTP 500 with
    [{error: "model not loaded"}] does not leave the parameters unchanged:
    [loadDefaults] never looks at [response.ok], stores the absent
    [defaults], that is [undefined], in place of the whole set, and reports
    success; the page can then no longer be rendered. *)
Theorem loadDefaults_http_failure `{Engine} :
  let after :=
    loadDefaults (Responded false (Json (payload_with_error (VStr "model not loaded"))))
      initial_state in
  parameters (fst after) = VUndefined
  /\ parameters initial_state = initial_parameters
  /\ snd after = "Parameters reset to defaults!"
  /\ renders (fst after) = false.
Proof.
  intros after. subst after. rewrite loadDefaults_replaces by reflexivity.
  repeat split.
Qed.

(** The parameters as received go into every later request body: each own
    property of the stored set is a property of the body. *)
Lemma requestBody_carries message parameters key v :
  own_properties parameters !! key = Some v ->
  own_properties (requestBody message parameters) !! key = Some v.
Proof.
  intros Hk. unfold requestBody. cbn [own_properties].
  now apply lookup_union_Some_l.
Qed.

Lemma has_slider_unknown parameters key :
  config_found key = false -> has_slider parameters key = false.
Proof. intros Hk. unfold has_slider. rewrite Hk. apply andb_false_r. Qed.

Lemma sliders_render_iff parameters :
  sliders_render parameters = true <->
  nullish parameters = false
  /\ forall key v, own_properties parameters !! key = Some v ->
                   config_found key = true -> renderable v = true.
Proof.
  unfold sliders_render. rewrite andb_true_iff, negb_true_iff, forallb_forall.
  split; intros [Hdefined Hall]; (split; [exact Hdefined |]).
  - intros key v Hkey Hfound.
    specialize (Hall (key, v)). cbn [fst snd] in Hall.
    rewrite Hfound in Hall. apply Hall.
    apply list_elem_of_In. now apply elem_of_map_to_list.
  - intros [key v] Hin. cbn [fst snd].
    apply list_elem_of_In, elem_of_map_to_list in Hin.
    destruct (config_found key) eqn:Hfound; [| reflexivity].
    cbn [implb]. now apply (Hall key v).
Qed.

(** C6, as the code has it.  A defaults payload that is accepted is stored
    as received, unknown keys included: every key of its [defaults] is a key
    of the stored set, goes into the body of every later request and into
    the snapshot of every later successful record.  Unknown keys are ignored
    only where the sliders are rendered: a key that [configs] does not
    resolve gets no slider, and its value, whatever it is, has no part in
    whether the sliders can be rendered. *)
Theorem unknown_defaults_are_kept `{Engine}
    (ok : bool) (props : gmap string value) (defaults : value) (s : state) :
  props !! "defaults" = Some defaults ->
  let s' := fst (loadDefaults (Responded ok (Json (VObj props))) s) in
  parameters s' = defaults
  /\ (forall key v message,
        own_properties defaults !! key = Some v ->
        own_properties (parameters s') !! key = Some v
        /\ own_properties (requestBody message (parameters s')) !! key = Some v)
  /\ (forall c o now stamp,
        sub_parameters c = parameters s' -> ending_of o = Success ->
        r_parameters (record_of c o now stamp)
        = Some (VObj (own_properties defaults)))
  /\ (forall key, config_found key = false -> has_slider (parameters s') key = false)
  /\ (sliders_render (parameters s') = true <->
      nullish defaults = false
      /\ forall key v, own_properties defaults !! key = Some v ->
                       config_found key = true -> renderable v = true).
Proof.
  intros Hdefaults s'. subst s'. rewrite loadDefaults_replaces by reflexivity.
  cbn [fst]. rewrite get_object, Hdefaults. cbn [default].
  change (parameters (setParameters (fun _ => defaults) s)) with defaults.
  split; [reflexivity |]. split; [| split; [| split]].
  - intros key v message Hk. split; [exact Hk |].
    now apply requestBody_carries.
  - intros c o now stamp Hc Ho. now rewrite record_of_parameters, Ho, Hc.
  - intros key. apply has_slider_unknown.
  - apply sliders_render_iff.
Qed.

(** C6 at two payloads whose [defaults] have the unknown key [foo], once with
    a number and once with an object as its value: both are stored as they
    are and the sliders can still be rendered. *)
Lemma unknown_defaults_are_kept_witness :
  parameters
    (fst (@loadDefaults sample_engine (Responded true (Json defaults_with_unknown_key))
            initial_state))
  = VObj {[ "temperature" := VNum (Finite 1); "foo" := VNum (Finite 3) ]}
  /\ sliders_render
       (parameters
          (fst (@loadDefaults sample_engine
                  (Responded true (Json defaults_with_unknown_object)) initial_state)))
     = true.
Proof.
  split.
  - pose proof (@unknown_defaults_are_kept sample_engine true
                  {[ "defaults" :=
                       VObj {[ "temperature" := VNum (Finite 1);
                               "foo" := VNum (Finite 3) ]} ]}
                  (VObj {[ "temperature" := VNum (Finite 1); "foo" := VNum (Finite 3) ]})
                  initial_state) as Hkept.
    destruct Hkept as (Hstored & _); [reflexivity | exact Hstored].
  - pose proof (@unknown_defaults_are_kept sample_engine true
                  {[ "defaults" :=
                       VObj {[ "temperature" := VNum (Finite 1);
                               "foo" := VObj {[ "a" := VNum (Finite 1) ]} ]} ]}
                  (VObj {[ "temperature" := VNum (Finite 1);
                           "foo" := VObj {[ "a" := VNum (Finite 1) ]} ]})
                  initial_state) as Hkept.
    destruct Hkept as (_ & _ & _ & _ & Hrender); [reflexivity |].
    apply Hrender. split; [reflexivity |].
    intros key v Hkey Hfound. cbn [own_properties] in Hkey.
    apply lookup_insert_Some in Hkey as [[<- <-] | [_ Hkey]]; [reflexivity |].
    apply lookup_singleton_Some in Hkey as [<- <-]. discriminate Hfound.
Defined.

(** C6 as stated fails: after a reset from a payload with the unknown key
    [foo], the stored set has the key [foo], which [configs] does not know,
    and the body of the next request carries it. *)
Lemma unknown_defaults_are_kept_counterexample :
  configs !! "foo" = None
  /\ own_properties
       (parameters
          (fst (@loadDefaults sample_engine
                  (Responded true (Json defaults_with_unknown_key)) initial_state)))
     !! "foo" = Some (VNum (Finite 3))
  /\ (own_properties ∘ sub_body <$>
      snd (handleSubmit
             (setMessage "hi"
                (fst (@loadDefaults sample_engine
                        (Responded true (Json defaults_with_unknown_key))
                        initial_state)))))
     ≫= (.!! "foo") = Some (VNum (Finite 3)).
Proof. repeat split; vm_compute; reflexivity. Qed.

(** ** [checkHealth] *)

(** C8, as the code has it.  The probe maps a JSON object whose [status]
    is the string "healthy" to [healthy]; every other JSON body but [null] to
    [partial], be it an object with another [status] or with none (such as
    [{status: "degraded"}] or [{}]) or a number, a string, a boolean or an
    array; and a request that is rejected, a body that is not JSON, and the
    body [null] to [error].  [checkHealth] stores that status. *)
Theorem probe_mapping `{Engine} :
  (forall ok props, props !! "status" = Some (VStr "healthy") ->
                    probe (Responded ok (Json (VObj props))) = healthy)
  /\ (forall ok props, props !! "status" <> Some (VStr "healthy") ->
                       probe (Responded ok (Json (VObj props))) = partial)
  /\ (forall ok data, nullish data = false -> (forall props, data <> VObj props) ->
                      probe (Responded ok (Json data)) = partial)
  /\ (forall ok, probe (Responded ok (Json VNull)) = error)
  /\ (forall msg, probe (Rejected msg) = error)
  /\ (forall ok msg, probe (Responded ok (NotJson msg)) = error)
  /\ (forall o s, apiStatus (checkHealth o s) = probe o).
Proof.
  split; [| split; [| split; [| repeat split]]].
  - intros ok props Hstatus. unfold probe. cbn [await bind catch snd json].
    rewrite nullish_false_read by reflexivity. cbn [bind catch].
    now rewrite get_object, Hstatus.
  - intros ok props Hstatus. unfold probe. cbn [await bind catch snd json].
    rewrite nullish_false_read by reflexivity. cbn [bind catch]. rewrite get_object.
    destruct (props !! "status") as [[| | b | n | text | items | inner] |];
      try reflexivity.
    cbn. destruct (String.eqb_spec text "healthy") as [-> |];
      [contradiction | reflexivity].
  - intros ok data Hd Hother. unfold probe. cbn [await bind catch snd json].
    rewrite (nullish_false_read _ _ _ Hd). cbn [bind catch].
    destruct data as [| | b | n | text | items | props]; try reflexivity.
    now destruct (Hother props).
Qed.

(** C8 at the bodies [{status: "healthy"}] and [{status: "degraded"}]. *)
Lemma probe_mapping_witness :
  @probe sample_engine (Responded true (Json (VObj {[ "status" := VStr "healthy" ]})))
  = healthy
  /\ @probe sample_engine (Responded true (Json (VObj {[ "status" := VStr "degraded" ]})))
     = partial.
Proof.
  destruct (@probe_mapping sample_engine) as (Hhealthy & Hpartial & _).
  split.
  - apply Hhealthy. reflexivity.
  - apply Hpartial. discriminate.
Defined.

(** C8 as stated fails.  The body [null] is well-formed JSON and is mapped
    to [error], not to [partial]; the bodies [{}] and [5] do not have the
    shape of a health payload and are mapped to [partial], not to
    [error]. *)
Lemma probe_mapping_counterexample :
  @probe sample_engine (Responded true (Json VNull)) = error
  /\ @probe sample_engine (Responded true (Json (VObj ∅))) = partial
  /\ @probe sample_engine (Responded true (Json (VNum (Finite 5)))) = partial.
Proof. repeat split. Qed.

(** ** Empty prompts *)

(** C9.  When the trimmed prompt is empty, [handleSubmit] returns at once:
    the state (history, index, parameters and all) is the one it was called
    in and no request is sent; and the submit button is disabled. *)
Theorem empty_prompt_is_noop `{Engine} (p : page) :
  trim (message (cells p)) = "" ->
  handleSubmit (cells p) = (cells p, None) /\ fire p SubmitForm = None.
Proof.
  intros Hempty. split.
  - unfold handleSubmit. now rewrite Hempty.
  - cbn [fire]. unfold submit_disabled. rewrite Hempty. cbn.
    now rewrite orb_true_r, andb_false_r.
Qed.

(** C9 at a prompt of white space only. *)
Lemma empty_prompt_is_noop_witness :
  handleSubmit (cells blank_page) = (cells blank_page, None)
  /\ @fire sample_engine blank_page SubmitForm = None.
Proof. apply (@empty_prompt_is_noop sample_engine blank_page). reflexivity. Defined.

(** ** One submission at a time *)

Lemma loadDefaults_cases `{Engine} o s :
  (exists text, loadDefaults o s = (s, text))
  \/ (exists d text, loadDefaults o s = (setParameters (fun _ => d) s, text)).
Proof.
  destruct o as [msg | ok [data | msg]].
  - left. eexists. reflexivity.
  - destruct (nullish data) eqn:Hd.
    + left. unfold loadDefaults. cbn [await bind catch snd json].
      rewrite (nullish_true_read _ _ _ Hd). eexists. reflexivity.
    + right. rewrite (loadDefaults_replaces _ _ _ Hd). eauto.
  - left. eexists. reflexivity.
Qed.

(** [loadDefaults] touches nothing but [parameters]. *)
Lemma loadDefaults_frame `{Engine} o s :
  let s' := fst (loadDefaults o s) in
  message s' = message s /\ responses s' = responses s
  /\ currentResponseIndex s' = currentResponseIndex s /\ isLoading s' = isLoading s.
Proof.
  destruct (loadDefaults_cases o s) as [[text Heq] | (d & text & Heq)];
    rewrite Heq; repeat split.
Qed.

Lemma handleSubmit_accepts s :
  submit_disabled s = false ->
  handleSubmit s =
  (setIsLoading true s,
   Some {| sub_message := message s; sub_parameters := parameters s;
           sub_body := requestBody (message s) (parameters s) |}).
Proof.
  unfold submit_disabled, handleSubmit. intros Hen.
  apply orb_false_elim in Hen as [_ Hen]. now rewrite Hen.
Qed.

Lemma fire_effect `{Engine} p e p' : fire p e = Some p' -> effect p p' e.
Proof.
  destruct e as [text | | i o now stamp | | o | o | key raw | | | index]; cbn [fire].
  - destruct (renders (cells p) && negb (isLoading (cells p))); [| discriminate].
    intros [= <-]. apply effect_browse; try reflexivity; try discriminate.
    now left.
  - destruct (renders (cells p)); [| discriminate]. cbn [andb].
    destruct (submit_disabled (cells p)) eqn:Hdis; [discriminate |]. cbn [negb].
    rewrite (handleSubmit_accepts _ Hdis). intros [= <-].
    apply effect_accept; try reflexivity.
    + unfold submit_disabled in Hdis. now apply orb_false_elim in Hdis as [? _].
    + eexists. split; [| reflexivity]. reflexivity.
  - destruct (submissions p !! i) as [c |] eqn:Hc; [| discriminate].
    intros [= <-]. now apply effect_settle with (c := c).
  - destruct (renders (cells p)); [| discriminate].
    intros [= <-]. apply effect_browse; try reflexivity; try discriminate.
    now left.
  - destruct (defaults_pending p) as [| n]; [discriminate |].
    pose proof (loadDefaults_frame o (cells p)) as Hframe. cbv zeta in Hframe.
    destruct (loadDefaults o (cells p)) as [s' text]. cbn [fst] in Hframe.
    destruct Hframe as (_ & Hr & Hi & Hl).
    intros [= <-]. apply effect_browse; cbn [cells submissions]; try discriminate;
      try assumption; try reflexivity.
    now left.
  - destruct (health_pending p); [| discriminate].
    intros [= <-]. apply effect_browse; try reflexivity; try discriminate.
    now left.
  - destruct (renders (cells p) && has_slider (parameters (cells p)) key); [| discriminate].
    intros [= <-]. apply effect_browse; try reflexivity; try discriminate.
    now left.
  - destruct (renders (cells p)); [| discriminate]. cbn [andb].
    destruct (Nat.ltb_spec 1 (length (responses (cells p)))) as [Hlen |]; [| discriminate].
    intros [= <-]. apply effect_browse; try reflexivity; try discriminate.
    right. split; [exact Hlen |]. now left.
  - destruct (renders (cells p)); [| discriminate]. cbn [andb].
    destruct (Nat.ltb_spec 1 (length (responses (cells p)))) as [Hlen |]; [| discriminate].
    intros [= <-]. apply effect_browse; try reflexivity; try discriminate.
    right. split; [exact Hlen |]. right. now left.
  - destruct (renders (cells p)); [| discriminate]. cbn [andb].
    destruct (Nat.ltb_spec 1 (length (responses (cells p)))) as [Hlen |]; [| discriminate].
    cbn [andb].
    destruct (Nat.ltb_spec index (length (responses (cells p)))) as [Hidx |]; [| discriminate].
    intros [= <-]. apply effect_browse; try reflexivity; try discriminate.
    right. split; [exact Hlen |]. right. right. now exists index.
Qed.

Lemma one_in_flight_initial : one_in_flight initial_page.
Proof. left. split; reflexivity. Qed.

Lemma fire_one_in_flight `{Engine} p e p' :
  one_in_flight p -> fire p e = Some p' -> one_in_flight p'.
Proof.
  intros Hinv Hfire. apply fire_effect in Hfire.
  destruct Hfire as [Hidle Hr Hi Hbusy (c & Hc & Hsub)
                    | i o now stamp c Hc Hr Hi Hidle Hsub
                    | e Hne1 Hne2 Hr Hl Hsub Hi].
  - right. exists c. split; [| exact Hbusy].
    destruct Hinv as [[Hnone _] | (c' & _ & Hl)]; [| congruence].
    now rewrite Hsub, Hnone.
  - left. split; [| exact Hidle].
    destruct Hinv as [[Hnone _] | (c' & Hone & _)].
    + rewrite Hnone in Hc. discriminate.
    + rewrite Hone in Hc, Hsub. destruct i as [| i]; [exact Hsub | discriminate].
  - unfold one_in_flight. now rewrite Hsub, Hl.
Qed.

Lemma run_one_in_flight `{Engine} es : forall p p',
  one_in_flight p -> run p es = Some p' -> one_in_flight p'.
Proof.
  induction es as [| e es IH]; intros p p' Hinv; cbn [run].
  - now intros [= <-].
  - destruct (fire p e) as [q |] eqn:Hfire; [| discriminate].
    apply IH. now apply (fire_one_in_flight p e).
Qed.

(** Each event extends the sequence of prompts by the prompt it accepts, if
    any, at the end. *)
Lemma fire_prompts_in_order `{Engine} p e p' :
  one_in_flight p -> fire p e = Some p' ->
  prompts_in_order p' =
  (prompts_in_order p ++ match e with SubmitForm => [message (cells p)] | _ => [] end)%list.
Proof.
  intros Hinv Hfire. apply fire_effect in Hfire. unfold prompts_in_order.
  destruct Hfire as [Hidle Hr Hi Hbusy (c & Hc & Hsub)
                    | i o now stamp c Hc Hr Hi Hidle Hsub
                    | e Hne1 Hne2 Hr Hl Hsub Hi].
  - rewrite Hr, Hsub, map_app. cbn [map]. rewrite Hc. now rewrite app_assoc.
  - destruct Hinv as [[Hnone _] | (c' & Hone & _)].
    + rewrite Hnone in Hc. discriminate.
    + rewrite Hone in Hc, Hsub. destruct i as [| i]; [| discriminate].
      injection Hc as ->. rewrite Hr, Hsub, Hone. cbn [map rev delete].
      rewrite record_of_prompt. reflexivity.
  - rewrite Hr, Hsub.
    destruct e; try (now rewrite app_nil_r). congruence.
Qed.

Lemma run_prompts_in_order `{Engine} es : forall p p',
  one_in_flight p -> run p es = Some p' ->
  prompts_in_order p' = (prompts_in_order p ++ accepted p es)%list.
Proof.
  induction es as [| e es IH]; intros p p' Hinv; cbn [run accepted].
  - intros [= <-]. now rewrite app_nil_r.
  - destruct (fire p e) as [q |] eqn:Hfire; [| discriminate].
    intros Hrun.
    rewrite (IH q p' (fire_one_in_flight p e q Hinv Hfire) Hrun).
    rewrite (fire_prompts_in_order p e q Hinv Hfire).
    rewrite <- app_assoc. f_equal.
    destruct e; reflexivity.
Qed.

(** C2, as the code has it.  [handleSubmit] has no guard of its own against
    a call in flight; the guard is the submit button, disabled while
    [isLoading].  Through the button, a submission attempted while one is in
    flight cannot happen: no request is sent, no record is added, nothing is
    queued.  So on every page reached from the initial one at most one call
    is in flight, [isLoading] holds exactly while one is, and the records in
    the history followed by the call in flight carry the accepted prompts in
    the order they were accepted. *)
Theorem busy_submit_is_refused `{Engine} :
  (forall p, isLoading (cells p) = true -> fire p SubmitForm = None)
  /\ (forall es p,
        run initial_page es = Some p ->
        (length (submissions p) <= 1)%nat
        /\ (isLoading (cells p) = true <-> submissions p <> [])
        /\ prompts_in_order p = accepted initial_page es).
Proof.
  split.
  - intros p Hbusy. cbn [fire]. unfold submit_disabled. rewrite Hbusy. cbn [orb negb].
    now rewrite andb_false_r.
  - intros es p Hrun.
    pose proof (run_one_in_flight es _ _ one_in_flight_initial Hrun) as Hinv.
    split; [| split].
    + destruct Hinv as [[-> _] | (c & -> & _)]; cbn; lia.
    + destruct Hinv as [[-> ->] | (c & -> & ->)]; split; congruence.
    + now rewrite (run_prompts_in_order es _ _ one_in_flight_initial Hrun).
Qed.

(** C2 on the page where the prompt "hi" is in flight. *)
Lemma busy_submit_is_refused_witness :
  @fire sample_engine page_in_flight SubmitForm = None
  /\ (length (submissions page_in_flight) <= 1)%nat.
Proof.
  destruct (@busy_submit_is_refused sample_engine) as [Hrefused Hreached].
  split.
  - apply Hrefused. reflexivity.
  - apply (Hreached [Typed "hi"; SubmitForm] page_in_flight). vm_compute. reflexivity.
Defined.

(** C2 as stated fails for [handleSubmit] itself: called while a submission
    is in flight, it does not refuse; it sends a second request, whose
    settling then adds a second record. *)
Lemma busy_submit_is_refused_counterexample :
  isLoading busy_state = true
  /\ handleSubmit busy_state
     = (busy_state,
        Some {| sub_message := "second prompt"; sub_parameters := initial_parameters;
                sub_body := requestBody "second prompt" initial_parameters |}).
Proof. split; reflexivity. Qed.

(** ** The carousel index *)

Lemma previous_in_range len i :
  (0 < len)%nat -> (0 <= i < Z.of_nat len)%Z -> (0 <= previous len i < Z.of_nat len)%Z.
Proof. intros Hlen Hi. unfold previous. destruct (Z.ltb_spec 0 i); lia. Qed.

Lemma next_in_range len i :
  (0 < len)%nat -> (0 <= i < Z.of_nat len)%Z -> (0 <= next len i < Z.of_nat len)%Z.
Proof. intros Hlen Hi. unfold next. destruct (Z.ltb_spec i (Z.of_nat len - 1)); lia. Qed.

Lemma index_in_range_initial : index_in_range initial_state.
Proof. unfold index_in_range. cbn. lia. Qed.

Lemma settled_in_range `{Engine} c o now stamp s :
  index_in_range (handleSubmit_settled c o now stamp s).
Proof.
  unfold index_in_range.
  rewrite handleSubmit_settled_responses, handleSubmit_settled_index. cbn [length]. lia.
Qed.

Lemma fire_in_range `{Engine} p e p' :
  index_in_range (cells p) -> fire p e = Some p' -> index_in_range (cells p').
Proof.
  intros Hinv Hfire. apply fire_effect in Hfire. unfold index_in_range in *.
  destruct Hfire as [Hidle Hr Hi Hbusy _
                    | i o now stamp c Hc Hr Hi Hidle Hsub
                    | e Hne1 Hne2 Hr Hl Hsub Hi].
  - now rewrite Hr, Hi.
  - rewrite Hr, Hi. cbn [length]. lia.
  - rewrite Hr. intros Hlen. specialize (Hinv Hlen).
    destruct Hi as [-> | (_ & [-> | [-> | (index & Hidx & ->)]])].
    + exact Hinv.
    + now apply previous_in_range.
    + now apply next_in_range.
    + lia.
Qed.

Lemma run_in_range `{Engine} es : forall p p',
  index_in_range (cells p) -> run p es = Some p' -> index_in_range (cells p').
Proof.
  induction es as [| e es IH]; intros p p' Hinv; cbn [run].
  - now intros [= <-].
  - destruct (fire p e) as [q |] eqn:Hfire; [| discriminate].
    apply IH. now apply (fire_in_range p e).
Qed.

(** Right after a record is added, the record shown is that record. *)
Lemma settled_current `{Engine} c o now stamp s :
  current (handleSubmit_settled c o now stamp s) = Some (record_of c o now stamp).
Proof. reflexivity. Qed.

(** C7.  Whenever the history is not empty the index lies within it: every
    event of the page keeps it so, hence it holds on every page reached from
    the initial one.  Adding a record, of a success or of a failure alike,
    sets the index to 0; the updaters of the two carousel buttons and a click
    on a dot keep the index within the history.  (The component has no
    operation that empties the history.) *)
Theorem index_stays_in_range `{Engine} :
  (forall p e p',
      index_in_range (cells p) -> fire p e = Some p' -> index_in_range (cells p'))
  /\ (forall es p, run initial_page es = Some p -> index_in_range (cells p))
  /\ (forall c o now stamp s,
        currentResponseIndex (handleSubmit_settled c o now stamp s) = 0%Z
        /\ index_in_range (handleSubmit_settled c o now stamp s))
  /\ (forall s,
        index_in_range s ->
        index_in_range (setCurrentResponseIndex (previous (length (responses s))) s)
        /\ index_in_range (setCurrentResponseIndex (next (length (responses s))) s)
        /\ forall index, (index < length (responses s))%nat ->
             index_in_range (setCurrentResponseIndex (fun _ => Z.of_nat index) s)).
Proof.
  split; [exact fire_in_range |]. split; [| split].
  - intros es p. apply run_in_range. exact index_in_range_initial.
  - intros c o now stamp s. split; [reflexivity | apply settled_in_range].
  - intros s Hinv. unfold index_in_range in *. cbn [responses setCurrentResponseIndex
      currentResponseIndex]. repeat split; intros; try lia.
    + now apply previous_in_range; [| apply Hinv].
    + now apply previous_in_range; [| apply Hinv].
    + now apply next_in_range; [| apply Hinv].
    + now apply next_in_range; [| apply Hinv].
Qed.

(** C7 after two answered submissions and a click on the next button: the
    history has two records and the index is 1. *)
Lemma index_stays_in_range_witness :
  exists p,
    @run sample_engine initial_page sample_session = Some p
    /\ length (responses (cells p)) = 2%nat
    /\ currentResponseIndex (cells p) = 1%Z
    /\ index_in_range (cells p).
Proof.
  destruct (@index_stays_in_range sample_engine) as (_ & Hreached & _).
  eexists. split; [vm_compute; reflexivity |].
  split; [reflexivity |]. split; [reflexivity |].
  apply (Hreached sample_session). vm_compute. reflexivity.
Defined.

(** * Further properties of the component *)

(** ** The carousel buttons *)

(** X1.  On a history that is not empty, the two carousel updaters undo each
    other on every index within the history, wrap-around included. *)
Theorem previous_next_inverse (len : nat) (i : Z) :
  (0 < len)%nat -> (0 <= i < Z.of_nat len)%Z ->
  previous len (next len i) = i /\ next len (previous len i) = i.
Proof.
  intros Hlen Hi. unfold previous, next. split.
  - destruct (Z.ltb_spec i (Z.of_nat len - 1)).
    + destruct (Z.ltb_spec 0 (i + 1)); lia.
    + destruct (Z.ltb_spec 0 0); lia.
  - destruct (Z.ltb_spec 0 i).
    + destruct (Z.ltb_spec (i - 1) (Z.of_nat len - 1)); lia.
    + destruct (Z.ltb_spec (Z.of_nat len - 1) (Z.of_nat len - 1)); lia.
Qed.

(** X1 at the last of three records. *)
Lemma previous_next_inverse_witness :
  previous 3 (next 3 2) = 2%Z /\ next 3 (previous 3 2) = 2%Z.
Proof. apply (previous_next_inverse 3 2); lia. Defined.

Lemma next_step len m :
  (0 < len)%nat -> (0 <= m < Z.of_nat len)%Z ->
  next len m = ((m + 1) mod Z.of_nat len)%Z.
Proof.
  intros Hlen Hm. unfold next. destruct (Z.ltb_spec m (Z.of_nat len - 1)).
  - rewrite Z.mod_small; lia.
  - replace (m + 1)%Z with (Z.of_nat len) by lia. rewrite Z.mod_same; lia.
Qed.

Lemma previous_step len m :
  (0 < len)%nat -> (0 <= m < Z.of_nat len)%Z ->
  previous len m = ((m - 1) mod Z.of_nat len)%Z.
Proof.
  intros Hlen Hm. unfold previous. destruct (Z.ltb_spec 0 m).
  - rewrite Z.mod_small; lia.
  - replace (m - 1)%Z with (-1 * Z.of_nat len + (Z.of_nat len - 1))%Z by lia.
    rewrite Z.add_comm, Z.mod_add by lia. rewrite Z.mod_small; lia.
Qed.

(** X2.  Pressing next [k] times from an index within a history of [len]
    records lands on [(i + k) mod len], and pressing previous [k] times on
    [(i - k) mod len]: the buttons walk the history as a ring, and [len]
    presses of either come back to where they started. *)
Theorem carousel_is_a_ring (len k : nat) (i : Z) :
  (0 < len)%nat -> (0 <= i < Z.of_nat len)%Z ->
  Nat.iter k (next len) i = ((i + Z.of_nat k) mod Z.of_nat len)%Z
  /\ Nat.iter k (previous len) i = ((i - Z.of_nat k) mod Z.of_nat len)%Z
  /\ Nat.iter len (next len) i = i
  /\ Nat.iter len (previous len) i = i.
Proof.
  intros Hlen Hi.
  assert (Hnext : forall n, Nat.iter n (next len) i
                            = ((i + Z.of_nat n) mod Z.of_nat len)%Z).
  { induction n as [| n IH].
    - change (Nat.iter 0 (next len) i) with i. rewrite Z.mod_small; lia.
    - rewrite Nat.iter_succ, IH, next_step; [| lia | apply Z.mod_pos_bound; lia].
      rewrite Zplus_mod_idemp_l. f_equal. lia. }
  assert (Hprev : forall n, Nat.iter n (previous len) i
                            = ((i - Z.of_nat n) mod Z.of_nat len)%Z).
  { induction n as [| n IH].
    - change (Nat.iter 0 (previous len) i) with i. rewrite Z.mod_small; lia.
    - rewrite Nat.iter_succ, IH, previous_step; [| lia | apply Z.mod_pos_bound; lia].
      rewrite Zminus_mod_idemp_l. f_equal. lia. }
  split; [apply Hnext |]. split; [apply Hprev |]. split.
  - rewrite Hnext.
    replace (i + Z.of_nat len)%Z with (i + 1 * Z.of_nat len)%Z by lia.
    rewrite Z.mod_add by lia. apply Z.mod_small. lia.
  - rewrite Hprev.
    replace (i - Z.of_nat len)%Z with (i + (-1) * Z.of_nat len)%Z by lia.
    rewrite Z.mod_add by lia. apply Z.mod_small. lia.
Qed.

(** X2: five presses of next from the second of three records. *)
Lemma carousel_is_a_ring_witness :
  Nat.iter 5 (next 3) 1%Z = ((1 + 5) mod 3)%Z.
Proof. apply (carousel_is_a_ring 3 5 1); lia. Defined.

(** ** What each event leaves alone *)

Lemma handleSubmit_frame s :
  let s' := fst (handleSubmit s) in
  message s' = message s /\ parameters s' = parameters s
  /\ apiStatus s' = apiStatus s /\ responses s' = responses s
  /\ currentResponseIndex s' = currentResponseIndex s.
Proof.
  unfold handleSubmit.
  destruct (negb (ToBoolean (VStr (trim (message s))))); repeat split.
Qed.

Lemma loadDefaults_apiStatus `{Engine} o s :
  apiStatus (fst (loadDefaults o s)) = apiStatus s.
Proof.
  destruct (loadDefaults_cases o s) as [[text Heq] | (d & text & Heq)];
    now rewrite Heq.
Qed.

(** Case analysis on an event that happened: one goal per way the event can
    go, with the conditions that enabled it as hypotheses. *)
Ltac fired H :=
  match type of H with
  | fire _ ?e = Some _ =>
      destruct e; cbn [fire] in H;
      repeat match type of H with
             | context [if ?b then _ else _] =>
                 let Hb := fresh "Hen" in destruct b eqn:Hb; try discriminate H
             | context [match ?x with _ => _ end] =>
                 let Hx := fresh "Hcase" in destruct x eqn:Hx; try discriminate H
             end;
      injection H as <-;
      repeat match goal with
             | Hc : _ && _ = true |- _ => apply andb_prop in Hc as [? ?]
             | Hc : negb _ = true |- _ => apply negb_true_iff in Hc
             end
  end.

(** Only typing changes the prompt, and only while nothing is in flight. *)
Lemma fire_message `{Engine} p e p' :
  fire p e = Some p' ->
  message (cells p') = message (cells p)
  \/ (exists text, e = Typed text /\ isLoading (cells p) = false).
Proof.
  intros Hfire. fired Hfire; cbn [cells]; try (left; reflexivity).
  - right. eexists. split; [reflexivity | assumption].
  - left. pose proof (handleSubmit_frame (cells p)) as Hf. cbv zeta in Hf.
    rewrite Hcase in Hf. apply Hf.
  - left. pose proof (handleSubmit_frame (cells p)) as Hf. cbv zeta in Hf.
    rewrite Hcase in Hf. apply Hf.
  - left. pose proof (loadDefaults_frame o (cells p)) as Hf. cbv zeta in Hf.
    rewrite Hcase0 in Hf. apply Hf.
Qed.

(** Only the answer to the health request changes the status, and it comes
    once. *)
Lemma fire_apiStatus `{Engine} p e p' :
  fire p e = Some p' ->
  (apiStatus (cells p') = apiStatus (cells p) /\ health_pending p' = health_pending p)
  \/ (exists o, e = HealthArrived o /\ health_pending p = true
                /\ health_pending p' = false /\ apiStatus (cells p') = probe o).
Proof.
  intros Hfire. fired Hfire; cbn [cells health_pending];
    try (left; split; reflexivity).
  - left. pose proof (handleSubmit_frame (cells p)) as Hf. cbv zeta in Hf.
    rewrite Hcase in Hf. split; [apply Hf | reflexivity].
  - left. pose proof (handleSubmit_frame (cells p)) as Hf. cbv zeta in Hf.
    rewrite Hcase in Hf. split; [apply Hf | reflexivity].
  - left. pose proof (loadDefaults_apiStatus o (cells p)) as Hf.
    rewrite Hcase0 in Hf. split; [apply Hf | reflexivity].
  - right. exists o. repeat split.
Qed.

(** Only a settled defaults request raises an alert, and it raises one. *)
Lemma fire_alerts `{Engine} p e p' :
  fire p e = Some p' ->
  length (alerts p') = (length (alerts p) + (if is_defaults_arrived e then 1 else 0))%nat.
Proof.
  intros Hfire. fired Hfire; cbn [alerts is_defaults_arrived length with_cells]; lia.
Qed.

(** Only a settled defaults request changes which keys the parameters have,
    and only it can store something that is not a number. *)
Lemma fire_parameter_keys `{Engine} p e p' :
  fire p e = Some p' -> is_defaults_arrived e = false ->
  dom (own_properties (parameters (cells p')))
  = dom (own_properties (parameters (cells p)))
  /\ (numeric (parameters (cells p)) -> numeric (parameters (cells p'))).
Proof.
  intros Hfire Hnot. fired Hfire; cbn [cells with_cells]; try discriminate Hnot;
    try (split; [reflexivity | intros Hnum; exact Hnum]).
  - pose proof (handleSubmit_frame (cells p)) as Hf. cbv zeta in Hf.
    rewrite Hcase in Hf. destruct Hf as (_ & Hp & _). cbn [fst] in Hp.
    now rewrite Hp.
  - pose proof (handleSubmit_frame (cells p)) as Hf. cbv zeta in Hf.
    rewrite Hcase in Hf. destruct Hf as (_ & Hp & _). cbn [fst] in Hp.
    now rewrite Hp.
  - match goal with
    | Hs : has_slider _ _ = true |- _ =>
        unfold has_slider in Hs; destruct (andb_prop _ _ Hs) as [Hown _];
        apply bool_decide_eq_true in Hown
    end.
    cbn [parameters setParameters onChange own_properties]. split.
    + now apply dom_insert_lookup_L.
    + intros (props & Hprops & Hnum). eexists. split; [reflexivity |].
      rewrite Hprops. cbn [own_properties]. intros k v Hk.
      apply lookup_insert_Some in Hk as [[_ <-] | [_ Hk]]; [eauto | eauto].
Qed.

(** ** The history *)

Lemma fire_history `{Engine} p e p' :
  fire p e = Some p' ->
  exists new,
    responses (cells p') = (new ++ responses (cells p))%list
    /\ length new = (if is_completed e then 1 else 0)%nat.
Proof.
  intros Hfire. apply fire_effect in Hfire.
  destruct Hfire as [Hidle Hr Hi Hbusy _
                    | i o now stamp c Hc Hr Hi Hidle Hsub
                    | e Hne1 Hne2 Hr Hl Hsub Hi].
  - exists []. now rewrite Hr.
  - exists [record_of c o now stamp]. now rewrite Hr.
  - exists []. rewrite Hr. split; [reflexivity |].
    destruct e; try reflexivity. now destruct (Hne2 i o now stamp).
Qed.

(** X3.  The history only grows, and only at the front: whatever happens to
    the page, the records it had are still there, in the same order and
    unaltered, below the new ones; and there is one new record per
    completion request that settled, however it ended. *)
Theorem history_only_grows `{Engine} (es : list event) : forall p p',
  run p es = Some p' ->
  exists new,
    responses (cells p') = (new ++ responses (cells p))%list
    /\ length new = length (List.filter is_completed es).
Proof.
  induction es as [| e es IH]; intros p p'; cbn [run].
  - intros [= <-]. now exists [].
  - destruct (fire p e) as [q |] eqn:Hfire; [| discriminate].
    intros Hrun. destruct (IH q p' Hrun) as (later & Hlater & Hn).
    destruct (fire_history p e q Hfire) as (first & Hfirst & Hone).
    exists (later ++ first)%list. split.
    + now rewrite Hlater, Hfirst, app_assoc.
    + rewrite length_app, Hn, Hone. cbn [List.filter].
      destruct (is_completed e); cbn [length]; lia.
Qed.

(** X3 on the sample session: two requests settled, two records. *)
Lemma history_only_grows_witness :
  exists p new,
    @run sample_engine initial_page sample_session = Some p
    /\ responses (cells p) = (new ++ responses (cells initial_page))%list
    /\ length new = 2%nat.
Proof.
  assert (Hrun : exists p, @run sample_engine initial_page sample_session = Some p)
    by (eexists; vm_compute; reflexivity).
  destruct Hrun as [p Hrun].
  destruct (@history_only_grows sample_engine sample_session initial_page p Hrun)
    as (new & Hnew & Hlen).
  exists p, new. split; [exact Hrun |]. split; [exact Hnew | exact Hlen].
Defined.

(** ** Submissions in flight *)

Lemma fire_submit_enabled `{Engine} p p' :
  fire p SubmitForm = Some p' -> submit_disabled (cells p) = false.
Proof.
  cbn [fire]. destruct (renders (cells p)); [| discriminate]. cbn [andb].
  now destruct (submit_disabled (cells p)).
Qed.

Lemma enabled_not_blank s :
  submit_disabled s = false -> trim (message s) <> "".
Proof.
  unfold submit_disabled. intros Hen. apply orb_false_elim in Hen as [_ Hen].
  apply negb_false_iff in Hen. cbn [ToBoolean] in Hen.
  apply negb_true_iff in Hen. now apply String.eqb_neq.
Qed.


Lemma prompt_kept_initial : prompt_kept initial_page.
Proof. intros c Hc. cbn in Hc. now apply elem_of_nil in Hc. Qed.

Lemma fire_prompt_kept `{Engine} p e p' :
  one_in_flight p -> prompt_kept p -> fire p e = Some p' -> prompt_kept p'.
Proof.
  intros Hone Hkept Hfire.
  pose proof (fire_message p e p' Hfire) as Hmsg.
  pose proof (fire_effect p e p' Hfire) as Heff.
  destruct Heff as [Hidle Hr Hi Hbusy (c & Hc & Hsub)
                   | i o now stamp c Hc Hr Hi Hidle Hsub
                   | e Hne1 Hne2 Hr Hl Hsub Hi].
  - destruct Hmsg as [Hmsg | (text & Habs & _)]; [| discriminate].
    destruct Hone as [[Hnone _] | (c' & _ & Hl)]; [| congruence].
    rewrite Hnone in Hsub. cbn in Hsub.
    intros c0 Hc0. rewrite Hsub in Hc0. apply list_elem_of_singleton in Hc0 as ->.
    rewrite Hmsg. split; [exact Hc |].
    apply enabled_not_blank. now apply (fire_submit_enabled p p').
  - destruct Hmsg as [Hmsg | (text & Habs & _)]; [| discriminate].
    intros c0 Hc0. rewrite Hmsg. apply Hkept.
    rewrite Hsub in Hc0. now apply list_elem_of_delete_inv in Hc0.
  - destruct Hmsg as [Hmsg | (text & _ & Hidle)].
    + intros c0 Hc0. rewrite Hmsg. apply Hkept. now rewrite <- Hsub.
    + destruct Hone as [[Hnone _] | (c' & _ & Hbusy)]; [| congruence].
      intros c0 Hc0. rewrite Hsub, Hnone in Hc0. now apply elem_of_nil in Hc0.
Qed.

Lemma run_prompt_kept `{Engine} es : forall p p',
  one_in_flight p -> prompt_kept p -> run p es = Some p' ->
  one_in_flight p' /\ prompt_kept p'.
Proof.
  induction es as [| e es IH]; intros p p' Hone Hkept; cbn [run].
  - now intros [= <-].
  - destruct (fire p e) as [q |] eqn:Hfire; [| discriminate].
    apply IH.
    + now apply (fire_one_in_flight p e).
    + now apply (fire_prompt_kept p e).
Qed.

(** What settling the one call in flight gives, on a page reached from the
    initial one. *)
Lemma settle_in_flight `{Engine} es p o now stamp :
  run initial_page es = Some p -> isLoading (cells p) = true ->
  exists c,
    submissions p = [c]
    /\ sub_message c = message (cells p)
    /\ trim (message (cells p)) <> ""
    /\ fire p (Completed 0 o now stamp)
       = Some {| cells := handleSubmit_settled c o now stamp (cells p);
                 submissions := [];
                 defaults_pending := defaults_pending p;
                 health_pending := health_pending p; alerts := alerts p |}.
Proof.
  intros Hrun Hbusy.
  destruct (run_prompt_kept es _ _ one_in_flight_initial prompt_kept_initial Hrun)
    as [Hone Hkept].
  destruct Hone as [[_ Hidle] | (c & Hc & _)]; [congruence |].
  exists c. split; [exact Hc |].
  destruct (Hkept c) as [Hmsg Hne]; [rewrite Hc; apply list_elem_of_singleton; reflexivity |].
  split; [exact Hmsg |]. split; [exact Hne |].
  cbn [fire]. now rewrite Hc.
Qed.



(** X5.  The prompt is never cleared: when a submission made through the page
    settles, the record that is now shown carries, as its prompt, exactly the
    text the textarea still holds (typing is disabled while the request is in
    flight, and [handleSubmit] never resets [message]). *)
Theorem prompt_stays_in_textarea `{Engine}
    (es : list event) (p p' : page) (o : fetched) (now : Z) (stamp : string) :
  run initial_page es = Some p ->
  fire p (Completed 0 o now stamp) = Some p' ->
  r_prompt <$> current (cells p') = Some (message (cells p'))
  /\ message (cells p') = message (cells p).
Proof.
  intros Hrun Hfire.
  assert (Hbusy : isLoading (cells p) = true).
  { pose proof (run_one_in_flight es _ _ one_in_flight_initial Hrun) as Hone.
    cbn [fire] in Hfire.
    destruct Hone as [[Hnone _] | (c & _ & Hl)]; [| exact Hl].
    rewrite Hnone in Hfire. discriminate. }
  destruct (settle_in_flight es p o now stamp Hrun Hbusy) as (c & _ & Hmsg & _ & Hfire').
  rewrite Hfire in Hfire'. injection Hfire' as ->. cbn [cells].
  rewrite settled_current. cbn [fmap option_fmap option_map].
  rewrite record_of_prompt. split; [now rewrite Hmsg | reflexivity].
Qed.

(** X5 on the page where the prompt "hi" is in flight. *)
Lemma prompt_stays_in_textarea_witness :
  exists p',
    @fire sample_engine page_in_flight
      (Completed 0 (Responded true (Json (payload_with_content (VStr "hello")))) 1 "")
    = Some p'
    /\ r_prompt <$> current (cells p') = Some "hi".
Proof.
  eexists. split; [vm_compute; reflexivity |].
  refine (proj1 (@prompt_stays_in_textarea sample_engine [Typed "hi"; SubmitForm]
                   page_in_flight _
                   (Responded true (Json (payload_with_content (VStr "hello"))))
                   1%Z "" _ _));
    vm_compute; reflexivity.
Defined.

(** X6.  The submit button and [handleSubmit] agree: the button is enabled
    exactly when nothing is in flight and [handleSubmit] would send a
    request; the request then carries the prompt as typed (not trimmed) and
    the parameters as they are, and [isLoading] is set. *)
Theorem enabled_button_sends (s : state) :
  submit_disabled s = false <->
  isLoading s = false
  /\ handleSubmit s
     = (setIsLoading true s,
        Some {| sub_message := message s; sub_parameters := parameters s;
                sub_body := requestBody (message s) (parameters s) |}).
Proof.
  split.
  - intros Hen. split; [| now apply handleSubmit_accepts].
    unfold submit_disabled in Hen. now apply orb_false_elim in Hen as [? _].
  - intros [Hidle Hsend]. unfold submit_disabled. rewrite Hidle. cbn [orb].
    unfold handleSubmit in Hsend.
    destruct (negb (ToBoolean (VStr (trim (message s))))); [discriminate | reflexivity].
Qed.

Lemma run_keeps_flight `{Engine} es : forall p p',
  one_in_flight p -> isLoading (cells p) = true ->
  forallb (fun e => negb (is_completed e)) es = true ->
  run p es = Some p' ->
  submissions p' = submissions p /\ isLoading (cells p') = true /\ one_in_flight p'.
Proof.
  induction es as [| e es IH]; intros p p' Hone Hbusy Hnone; cbn [run].
  - now intros [= <-].
  - destruct (fire p e) as [q |] eqn:Hfire; [| discriminate].
    cbn [forallb] in Hnone. apply andb_prop in Hnone as [He Hes].
    intros Hrun.
    pose proof (fire_one_in_flight p e q Hone Hfire) as Hone'.
    pose proof (fire_effect p e q Hfire) as Heff.
    destruct Heff as [Hidle _ _ _ _
                     | i o now stamp c _ _ _ _ _
                     | e Hne1 Hne2 Hr Hl Hsub Hi].
    + congruence.
    + discriminate He.
    + destruct (IH q p' Hone' ltac:(congruence) Hes Hrun) as (Hs & Hb & Ho).
      split; [congruence |]. split; assumption.
Qed.

(** X7.  The snapshot is of the time of submission.  Whatever happens to the
    page while a submission made through it is in flight (sliders moved, the
    defaults reset, the carousel browsed), the record built when its request
    settles carries the prompt that was submitted and, on a success, a copy
    of the parameters as they were when it was submitted. *)
Theorem snapshot_is_of_submission_time `{Engine}
    (p p1 p2 p3 : page) (es : list event) (o : fetched) (now : Z) (stamp : string) :
  one_in_flight p ->
  fire p SubmitForm = Some p1 ->
  forallb (fun e => negb (is_completed e)) es = true ->
  run p1 es = Some p2 ->
  fire p2 (Completed 0 o now stamp) = Some p3 ->
  exists r,
    current (cells p3) = Some r
    /\ r_prompt r = message (cells p)
    /\ r_parameters r =
       match ending_of o with
       | Success => Some (VObj (own_properties (parameters (cells p))))
       | ApiFailure | TransportFailure => None
       end.
Proof.
  intros Hone Hsubmit Hnone Hrun Hsettle.
  pose proof (fire_submit_enabled p p1 Hsubmit) as Hen.
  pose proof (fire_one_in_flight p _ p1 Hone Hsubmit) as Hone1.
  assert (Hidle : isLoading (cells p) = false).
  { unfold submit_disabled in Hen. now apply orb_false_elim in Hen as [? _]. }
  assert (Hnothing : submissions p = []).
  { destruct Hone as [[Hn _] | (c & _ & Hb)]; [exact Hn | congruence]. }
  cbn [fire] in Hsubmit. destruct (renders (cells p)); [| discriminate].
  cbn [andb] in Hsubmit. rewrite Hen, (handleSubmit_accepts _ Hen) in Hsubmit.
  cbn [negb] in Hsubmit. injection Hsubmit as <-.
  rewrite Hnothing in Hrun, Hone1. cbn [app] in Hrun, Hone1.
  destruct (run_keeps_flight es _ p2 Hone1 eq_refl Hnone Hrun) as (Hsame & _ & _).
  cbn [submissions] in Hsame.
  cbn [fire] in Hsettle. rewrite Hsame in Hsettle. cbn [lookup list_lookup] in Hsettle.
  injection Hsettle as <-. cbn [cells].
  eexists. split; [apply settled_current |].
  split; [now rewrite record_of_prompt |].
  now rewrite record_of_parameters.
Qed.

(** X7: the temperature slider is moved to 2 while the prompt "hi" is in
    flight; the record of the answer still carries the initial parameters. *)
Lemma snapshot_is_of_submission_time_witness :
  exists p2 p3 r,
    @run sample_engine page_in_flight [Slid "temperature" (Finite 2)] = Some p2
    /\ get (parameters (cells p2)) "temperature" = VNum (Finite 2)
    /\ @fire sample_engine p2
         (Completed 0 (Responded true (Json (payload_with_content (VStr "hello")))) 1 "")
       = Some p3
    /\ current (cells p3) = Some r
    /\ r_prompt r = "hi"
    /\ r_parameters r = Some initial_parameters.
Proof.
  assert (Hrun : exists p2, @run sample_engine page_in_flight
                              [Slid "temperature" (Finite 2)] = Some p2
                            /\ get (parameters (cells p2)) "temperature" = VNum (Finite 2))
    by (eexists; split; vm_compute; reflexivity).
  destruct Hrun as (p2 & Hrun & Hmoved).
  assert (Hsettle : exists p3,
             @fire sample_engine p2
               (Completed 0 (Responded true (Json (payload_with_content (VStr "hello"))))
                  1 "") = Some p3).
  { cbn [run] in Hrun.
    destruct (@fire sample_engine page_in_flight (Slid "temperature" (Finite 2)))
      as [q |] eqn:Hslid; [| discriminate].
    injection Hrun as <-. vm_compute in Hslid. injection Hslid as <-.
    eexists. vm_compute. reflexivity. }
  destruct Hsettle as [p3 Hsettle].
  destruct (@snapshot_is_of_submission_time sample_engine
              (with_cells (setMessage "hi" initial_state) initial_page)
              page_in_flight p2 p3
              [Slid "temperature" (Finite 2)]
              (Responded true (Json (payload_with_content (VStr "hello")))) 1%Z ""
              (or_introl (conj eq_refl eq_refl))
              ltac:(vm_compute; reflexivity) eq_refl Hrun Hsettle)
    as (r & Hcurrent & Hprompt & Hsnapshot).
  exists p2, p3, r. split; [exact Hrun |]. split; [exact Hmoved |].
  split; [exact Hsettle |].
  split; [exact Hcurrent |]. split; [exact Hprompt | exact Hsnapshot].
Defined.

(** ** The status badge *)

Lemma probe_not_checking `{Engine} o : probe o <> checking.
Proof.
  destruct o as [msg | ok [data | msg]]; try discriminate.
  unfold probe. cbn [await bind catch snd json]. unfold read.
  destruct (nullish data); cbn [bind catch]; [discriminate |].
  destruct (strict_equal_string (get data "status") "healthy"); discriminate.
Qed.

Lemma status_settled_initial : status_settled initial_page.
Proof. reflexivity. Qed.

Lemma fire_status_settled `{Engine} p e p' :
  status_settled p -> fire p e = Some p' -> status_settled p'.
Proof.
  intros Hinv Hfire. unfold status_settled in *.
  destruct (fire_apiStatus p e p' Hfire) as [[Hs Hp] | (o & _ & _ & Hp & Hs)].
  - now rewrite Hp, Hs.
  - rewrite Hp, Hs. apply probe_not_checking.
Qed.

Lemma run_status_settled `{Engine} es : forall p p',
  status_settled p -> run p es = Some p' -> status_settled p'.
Proof.
  induction es as [| e es IH]; intros p p' Hinv; cbn [run].
  - now intros [= <-].
  - destruct (fire p e) as [q |] eqn:Hfire; [| discriminate].
    apply IH. now apply (fire_status_settled p e).
Qed.

Lemma run_status_fixed `{Engine} es : forall p p',
  health_pending p = false -> run p es = Some p' ->
  apiStatus (cells p') = apiStatus (cells p) /\ health_pending p' = false.
Proof.
  induction es as [| e es IH]; intros p p' Hdone; cbn [run].
  - now intros [= <-].
  - destruct (fire p e) as [q |] eqn:Hfire; [| discriminate].
    intros Hrun.
    destruct (fire_apiStatus p e q Hfire) as [[Hs Hp] | (o & _ & Habs & _)];
      [| congruence].
    destruct (IH q p' ltac:(congruence) Hrun) as [Hs' Hp'].
    split; congruence.
Qed.

(** X8.  The health probe is one-shot.  On every page reached from the
    initial one the status is [checking] exactly while the health request is
    in flight; the answer, whatever it is, moves the status off [checking];
    and once it has arrived nothing that happens to the page changes the
    status again: not a failed completion, not a later successful one. *)
Theorem status_is_one_shot `{Engine} :
  (forall es p, run initial_page es = Some p ->
     (apiStatus (cells p) = checking <-> health_pending p = true))
  /\ (forall p o p', fire p (HealthArrived o) = Some p' ->
        apiStatus (cells p') = probe o /\ apiStatus (cells p') <> checking
        /\ forall o', fire p' (HealthArrived o') = None)
  /\ (forall p es p', health_pending p = false -> run p es = Some p' ->
        apiStatus (cells p') = apiStatus (cells p)).
Proof.
  split; [| split].
  - intros es p Hrun.
    pose proof (run_status_settled es _ _ status_settled_initial Hrun) as Hinv.
    unfold status_settled in Hinv.
    destruct (health_pending p); split; congruence.
  - intros p o p' Hfire.
    destruct (fire_apiStatus p _ p' Hfire) as [[_ Hp] | (o0 & [= <-] & Hwas & Hnow & Hs)].
    + cbn [fire] in Hfire. destruct (health_pending p) eqn:Hpend; [| discriminate].
      injection Hfire as <-. cbn [health_pending] in Hp. discriminate.
    + split; [exact Hs |]. split; [rewrite Hs; apply probe_not_checking |].
      intros o'. cbn [fire]. now rewrite Hnow.
  - intros p es p' Hdone Hrun. now apply (run_status_fixed es p p').
Qed.

(** X8 on the initial page: the probe is answered with
    [{status: "degraded"}], then a completion request fails. *)
Lemma status_is_one_shot_witness :
  exists p,
    @run sample_engine initial_page
      [ HealthArrived (Responded true (Json (VObj {[ "status" := VStr "degraded" ]})));
        Typed "hi"; SubmitForm; Completed 0 (Rejected "Failed to fetch") 1 "" ]
    = Some p
    /\ apiStatus (cells p) = partial.
Proof.
  destruct (@status_is_one_shot sample_engine) as (_ & _ & Hfixed).
  eexists. split; [vm_compute; reflexivity |].
  apply (Hfixed
           {| cells := setApiStatus partial initial_state; submissions := [];
              defaults_pending := 0; health_pending := false; alerts := [] |}
           [Typed "hi"; SubmitForm; Completed 0 (Rejected "Failed to fetch") 1%Z ""]);
    vm_compute; reflexivity.
Defined.

(** X9.  Neither [checkHealth] nor [loadDefaults] looks at the HTTP status:
    the status shown and the parameters stored depend on the body alone, so
    an error response with a JSON body is treated like a success.
    [handleSubmit] does look: the same non-[null] JSON body gives a record
    with the error flag under a failure status and without it under a
    success status. *)
Theorem only_handleSubmit_reads_http_status `{Engine} :
  (forall ok ok' b, probe (Responded ok b) = probe (Responded ok' b))
  /\ (forall ok ok' b s,
        loadDefaults (Responded ok b) s = loadDefaults (Responded ok' b) s)
  /\ (forall c data now stamp,
        nullish data = false ->
        r_isError (record_of c (Responded true (Json data)) now stamp) = None
        /\ r_isError (record_of c (Responded false (Json data)) now stamp) = Some true).
Proof.
  split; [reflexivity |]. split; [reflexivity |].
  intros c data now stamp Hd.
  rewrite (record_of_success _ _ _ _ Hd), (record_of_api_failure _ _ _ _ Hd).
  split; [reflexivity |].
  now destruct (ToString (or_else (get data "error") (VStr "Unknown error"))).
Qed.

(** X9 at the body [{status: "healthy"}] sent with an error status. *)
Lemma only_handleSubmit_reads_http_status_witness :
  @probe sample_engine (Responded false (Json (VObj {[ "status" := VStr "healthy" ]})))
  = healthy
  /\ r_isError
       (@record_of sample_engine sample_submission
          (Responded false (Json (VObj {[ "status" := VStr "healthy" ]}))) 0 "")
     = Some true.
Proof.
  destruct (@only_handleSubmit_reads_http_status sample_engine) as (Hprobe & _ & Hrecord).
  split.
  - rewrite (Hprobe false true). reflexivity.
  - apply (Hrecord sample_submission (VObj {[ "status" := VStr "healthy" ]}) 0%Z "").
    reflexivity.
Defined.

(** X10.  Each badge is its own: no two statuses share the text or the
    colours of their badge. *)
Theorem getStatusDisplay_injective (a b : ApiStatus) :
  (text (getStatusDisplay a) = text (getStatusDisplay b) -> a = b)
  /\ (className (getStatusDisplay a) = className (getStatusDisplay b) -> a = b).
Proof. split; destruct a, b; cbn; intros Heq; first [reflexivity | discriminate Heq]. Qed.

(** X10 at the status a probe of [{status: "degraded"}] gives. *)
Lemma getStatusDisplay_injective_witness :
  @probe sample_engine (Responded true (Json (VObj {[ "status" := VStr "degraded" ]})))
  = partial.
Proof.
  apply (getStatusDisplay_injective
           (@probe sample_engine
              (Responded true (Json (VObj {[ "status" := VStr "degraded" ]}))))
           partial).
  reflexivity.
Defined.

(** ** Resetting and sliding the parameters *)

(** X11.  [loadDefaults] has two outcomes and says which.  Either it alerts
    "Parameters reset to defaults!" and only [parameters] has changed, to the
    payload's [defaults] (no merge with the old set: no old key survives
    unless the payload has it); or it alerts "Failed to load defaults: "
    followed by the error's message and the state is exactly as before.
    The second happens exactly when the request is rejected, the body is not
    JSON, or the body is [null]. *)
Theorem loadDefaults_outcomes `{Engine} (o : fetched) (s : state) :
  match o with
  | Responded _ (Json data) =>
      if nullish data then
        loadDefaults o s
        = (s, "Failed to load defaults: " ++ type_error_message "data" data "defaults")
      else
        loadDefaults o s
        = (setParameters (fun _ => get data "defaults") s, "Parameters reset to defaults!")
        /\ forall key, own_properties (parameters (fst (loadDefaults o s))) !! key
                       = own_properties (get data "defaults") !! key
  | Responded _ (NotJson msg) | Rejected msg =>
      loadDefaults o s = (s, "Failed to load defaults: " ++ msg)
  end.
Proof.
  destruct o as [msg | ok [data | msg]]; try reflexivity.
  destruct (nullish data) eqn:Hd.
  - unfold loadDefaults. cbn [await bind catch snd json].
    now rewrite (nullish_true_read _ _ _ Hd).
  - rewrite (loadDefaults_replaces _ _ _ Hd). split; reflexivity.
Qed.

(** X12.  The caller of a reset is always told: every defaults request that
    settles raises exactly one alert, whether it worked or not, and nothing
    else on the page ever raises one (a failed submission or a failed health
    probe alerts nothing). *)
Theorem one_alert_per_reset `{Engine} (es : list event) : forall p p',
  run p es = Some p' ->
  length (alerts p')
  = (length (alerts p) + length (List.filter is_defaults_arrived es))%nat.
Proof.
  induction es as [| e es IH]; intros p p'; cbn [run].
  - intros [= <-]. cbn. lia.
  - destruct (fire p e) as [q |] eqn:Hfire; [| discriminate].
    intros Hrun. rewrite (IH q p' Hrun), (fire_alerts p e q Hfire).
    cbn [List.filter]. destruct (is_defaults_arrived e); cbn [length]; lia.
Qed.

(** X12: one reset that fails, among other events. *)
Lemma one_alert_per_reset_witness :
  exists p,
    @run sample_engine initial_page
      [ HealthArrived (Rejected "Failed to fetch"); ResetClicked;
        Typed "hi"; SubmitForm; DefaultsArrived (Rejected "Failed to fetch");
        Completed 0 (Rejected "Failed to fetch") 1 "" ]
    = Some p
    /\ alerts p = ["Failed to load defaults: Failed to fetch"]
    /\ length (alerts p) = 1%nat.
Proof.
  eexists. split; [vm_compute; reflexivity |]. split; [reflexivity |].
  apply (@one_alert_per_reset sample_engine
           [ HealthArrived (Rejected "Failed to fetch"); ResetClicked;
             Typed "hi"; SubmitForm; DefaultsArrived (Rejected "Failed to fetch");
             Completed 0 (Rejected "Failed to fetch") 1%Z "" ]
           initial_page).
  vm_compute. reflexivity.
Defined.

Lemma run_parameter_keys `{Engine} es : forall p p',
  forallb (fun e => negb (is_defaults_arrived e)) es = true ->
  run p es = Some p' ->
  dom (own_properties (parameters (cells p')))
  = dom (own_properties (parameters (cells p)))
  /\ (numeric (parameters (cells p)) -> numeric (parameters (cells p'))).
Proof.
  induction es as [| e es IH]; intros p p' Hnone; cbn [run].
  - now intros [= <-].
  - destruct (fire p e) as [q |] eqn:Hfire; [| discriminate].
    cbn [forallb] in Hnone. apply andb_prop in Hnone as [He Hes].
    apply negb_true_iff in He. intros Hrun.
    destruct (IH q p' Hes Hrun) as [Hdom Hnum].
    destruct (fire_parameter_keys p e q Hfire He) as [Hdom' Hnum'].
    split; [congruence | auto].
Qed.

Lemma numeric_initial : numeric initial_parameters.
Proof.
  eexists. split; [reflexivity |]. intros key v Hkey.
  repeat (apply lookup_insert_Some in Hkey as [[_ <-] | [_ Hkey]]; [eauto |]).
  apply lookup_singleton_Some in Hkey as [_ <-]. eauto.
Qed.

Lemma numeric_sliders_render parameters :
  numeric parameters -> sliders_render parameters = true.
Proof.
  intros (props & -> & Hnum). apply sliders_render_iff. split; [reflexivity |].
  intros key v Hkey _. destruct (Hnum key v Hkey) as [n ->]. reflexivity.
Qed.

(** X13.  Only a defaults reset changes which parameters there are.  As long
    as no defaults request settles, whatever else happens (sliders moved,
    prompts submitted and answered), the parameters reached from the initial
    page keep exactly the six configured keys, each holding a number and
    each with its slider, and the sliders can be rendered; whether the page
    can be rendered then turns on the record shown alone. *)
Theorem parameter_keys_are_stable `{Engine} (es : list event) (p : page) :
  forallb (fun e => negb (is_defaults_arrived e)) es = true ->
  run initial_page es = Some p ->
  dom (own_properties (parameters (cells p))) = dom configs
  /\ (forall key v, own_properties (parameters (cells p)) !! key = Some v ->
                    exists n, v = VNum n)
  /\ sliders_render (parameters (cells p)) = true
  /\ (forall key, has_slider (parameters (cells p)) key
                  = bool_decide (key ∈ dom configs))
  /\ renders (cells p) = record_renders (cells p).
Proof.
  intros Hnone Hrun.
  destruct (run_parameter_keys es initial_page p Hnone Hrun) as [Hdom Hnum].
  specialize (Hnum numeric_initial).
  assert (Hkeys : dom (own_properties (parameters (cells p))) = dom configs).
  { rewrite Hdom. now vm_compute. }
  pose proof (numeric_sliders_render _ Hnum) as Hsliders.
  split; [exact Hkeys |]. split; [| split; [exact Hsliders | split]].
  - destruct Hnum as (props & Hprops & Hnum). rewrite Hprops. exact Hnum.
  - intros key. unfold has_slider, config_found.
    destruct (decide (key ∈ dom configs)) as [Hin | Hout].
    + rewrite (bool_decide_eq_true_2 (key ∈ dom configs) Hin).
      rewrite bool_decide_eq_true_2 by (apply elem_of_dom; now rewrite Hkeys).
      rewrite (bool_decide_eq_true_2 (is_Some (configs !! key)))
        by now apply elem_of_dom.
      reflexivity.
    + rewrite (bool_decide_eq_false_2 (key ∈ dom configs) Hout).
      rewrite bool_decide_eq_false_2; [reflexivity |].
      intros Hsome. apply Hout. rewrite <- Hkeys. now apply elem_of_dom.
  - unfold renders. now rewrite Hsliders.
Qed.

(** X13 after two sliders were moved and a prompt was answered. *)
Lemma parameter_keys_are_stable_witness :
  exists p,
    @run sample_engine initial_page
      [ Slid "temperature" (Finite 2); Typed "hi"; SubmitForm;
        Slid "top_k" (Finite 10); Completed 0 (Rejected "Failed to fetch") 1 "" ]
    = Some p
    /\ dom (own_properties (parameters (cells p))) = dom configs
    /\ sliders_render (parameters (cells p)) = true.
Proof.
  assert (Hrun : exists p,
             @run sample_engine initial_page
               [ Slid "temperature" (Finite 2); Typed "hi"; SubmitForm;
                 Slid "top_k" (Finite 10); Completed 0 (Rejected "Failed to fetch") 1 "" ]
             = Some p)
    by (eexists; vm_compute; reflexivity).
  destruct Hrun as [p Hrun].
  destruct (@parameter_keys_are_stable sample_engine
              [ Slid "temperature" (Finite 2); Typed "hi"; SubmitForm;
                Slid "top_k" (Finite 10); Completed 0 (Rejected "Failed to fetch") 1%Z "" ]
              p eq_refl Hrun)
    as (Hkeys & _ & Hsliders & _).
  exists p. split; [exact Hrun |]. split; [exact Hkeys | exact Hsliders].
Defined.

(** X14.  Slider moves compose as writes to a record: a later move of the
    same slider overwrites the earlier one, moves of different sliders can be
    swapped, and a move never adds or removes a key of a set that already has
    the key. *)
Theorem slider_moves_compose (key other : string) (a b : number) (prev : value) :
  onChange key b (onChange key a prev) = onChange key b prev
  /\ (key <> other ->
      onChange key a (onChange other b prev) = onChange other b (onChange key a prev))
  /\ (is_Some (own_properties prev !! key) ->
      dom (own_properties (onChange key a prev)) = dom (own_properties prev)).
Proof.
  unfold onChange. cbn [own_properties]. split; [| split].
  - now rewrite insert_insert_eq.
  - intros Hne. f_equal. now apply insert_insert_ne.
  - intros Hkey. now apply dom_insert_lookup_L.
Qed.

(** X14 at the temperature and top_k sliders of the initial parameters. *)
Lemma slider_moves_compose_witness :
  onChange "temperature" (Finite 1) (onChange "top_k" (Finite 10) initial_parameters)
  = onChange "top_k" (Finite 10) (onChange "temperature" (Finite 1) initial_parameters)
  /\ dom (own_properties (onChange "temperature" (Finite 1) initial_parameters))
     = dom (own_properties initial_parameters).
Proof.
  destruct (slider_moves_compose "temperature" "top_k" (Finite 1) (Finite 10)
              initial_parameters) as (_ & Hswap & Hdom).
  split; [apply Hswap; discriminate | apply Hdom; vm_compute; eauto].
Defined.

(** ** The request *)

(** X15.  The body of a request has the keys of the parameters and the key
    [messages], nothing else.  Unless the parameters themselves have a key
    [messages], [messages] is the single user turn holding the prompt; if
    they do (a defaults payload can bring one), the spread overwrites the
    turn and the prompt is not sent at all. *)
Theorem request_body_contents (message : string) (parameters : value) :
  dom (own_properties (requestBody message parameters))
  = dom (own_properties parameters) ∪ {[ "messages" ]}
  /\ (own_properties parameters !! "messages" = None ->
      get (requestBody message parameters) "messages"
      = VArr [VObj {[ "role" := VStr "user"; "content" := VStr message ]}])
  /\ (forall v, own_properties parameters !! "messages" = Some v ->
                get (requestBody message parameters) "messages" = v).
Proof.
  unfold requestBody. cbn [own_properties get]. split; [| split].
  - now rewrite dom_union_L, dom_singleton_L.
  - intros Hnone. rewrite lookup_union_r by exact Hnone.
    now rewrite lookup_singleton_eq.
  - intros v Hsome. now rewrite (lookup_union_Some_l _ _ _ _ Hsome).
Qed.

(** X15 at the initial parameters, and at parameters a reset gave the key
    [messages]. *)
Lemma request_body_contents_witness :
  get (requestBody "hi" initial_parameters) "messages"
  = VArr [VObj {[ "role" := VStr "user"; "content" := VStr "hi" ]}]
  /\ get (requestBody "hi" (VObj {[ "messages" := VNull ]})) "messages" = VNull.
Proof.
  split.
  - destruct (request_body_contents "hi" initial_parameters) as (_ & Hturn & _).
    apply Hturn. reflexivity.
  - destruct (request_body_contents "hi" (VObj {[ "messages" := VNull ]}))
      as (_ & _ & Hspread).
    apply Hspread. reflexivity.
Defined.

(** ** What a record holds *)



(** ** What the carousel shows *)

(** X17.  The carousel always has a record to show.  On every page reached
    from the initial one, [responses[currentResponseIndex]] is a record
    exactly when the history is not empty (the guard around the record never
    hides one), and the counter reads "k of n" with [1 <= k <= n]. *)
Theorem carousel_shows_a_record `{Engine} (es : list event) (p : page) :
  run initial_page es = Some p ->
  (is_Some (current (cells p)) <-> responses (cells p) <> [])
  /\ (forall k n, counter (cells p) = Some (k, n) ->
        n = length (responses (cells p)) /\ (1 <= k <= Z.of_nat n)%Z
        /\ current (cells p) = responses (cells p) !! Z.to_nat (k - 1)).
Proof.
  intros Hrun.
  pose proof (run_in_range es initial_page _ index_in_range_initial Hrun) as Hinv.
  unfold index_in_range in Hinv. unfold current, counter.
  destruct (responses (cells p)) as [| r rs] eqn:Hr.
  - split.
    + split; [| congruence]. intros [r Hsome].
      destruct (currentResponseIndex (cells p) <? 0)%Z; discriminate.
    + intros k n. cbn. discriminate.
  - cbn [length] in *. specialize (Hinv ltac:(lia)).
    destruct (Z.ltb_spec (currentResponseIndex (cells p)) 0); [lia |].
    split.
    + split; [discriminate |]. intros _. apply lookup_lt_is_Some. cbn [length]. lia.
    + intros k n. cbn [Nat.ltb Nat.leb]. intros [= <- <-].
      split; [reflexivity |]. split; [lia |].
      f_equal. lia.
Qed.

(** X17 on the sample session: the second of two records is shown. *)
Lemma carousel_shows_a_record_witness :
  exists p,
    @run sample_engine initial_page sample_session = Some p
    /\ counter (cells p) = Some (2%Z, 2%nat)
    /\ is_Some (current (cells p)).
Proof.
  eexists. split; [vm_compute; reflexivity |]. split; [reflexivity |].
  apply (@carousel_shows_a_record sample_engine sample_session);
    [vm_compute; reflexivity |].
  discriminate.
Defined.

Lemma highlighted_count k len : forall start,
  length (List.filter id (map (fun index => Z.eqb (Z.of_nat index) (Z.of_nat k))
                            (seq start len)))
  = (if Nat.leb start k && Nat.ltb k (start + len) then 1 else 0)%nat.
Proof.
  induction len as [| len IH]; intros start; cbn [seq map List.filter].
  - destruct (Nat.leb_spec start k), (Nat.ltb_spec k (start + 0)); cbn; lia.
  - rewrite <- (Nat.add_succ_comm start len).
    destruct (Z.eqb_spec (Z.of_nat start) (Z.of_nat k)) as [Heq | Hne]; cbn [id length].
    + rewrite IH.
      destruct (Nat.leb_spec (S start) k), (Nat.leb_spec start k),
        (Nat.ltb_spec k (S start + len)); cbn; lia.
    + rewrite IH.
      destruct (Nat.leb_spec (S start) k), (Nat.leb_spec start k),
        (Nat.ltb_spec k (S start + len)); cbn; lia.
Qed.

(** X18.  Exactly one dot is highlighted.  On every page reached from the
    initial one whose history has more than one record, there is one dot per
    record, the dot of the record shown is highlighted, and no other dot
    is. *)
Theorem one_dot_is_highlighted `{Engine} (es : list event) (p : page) :
  run initial_page es = Some p ->
  (1 < length (responses (cells p)))%nat ->
  length (dots (cells p)) = length (responses (cells p))
  /\ length (List.filter id (dots (cells p))) = 1%nat
  /\ forall i, dots (cells p) !! i = Some true
               <-> i = Z.to_nat (currentResponseIndex (cells p)).
Proof.
  intros Hrun Hlen.
  pose proof (run_in_range es initial_page _ index_in_range_initial Hrun) as Hinv.
  unfold index_in_range in Hinv. specialize (Hinv ltac:(lia)).
  unfold dots. destruct (Nat.ltb_spec 1 (length (responses (cells p)))); [| lia].
  set (len := length (responses (cells p))) in *.
  set (idx := currentResponseIndex (cells p)) in *.
  assert (Hidx : idx = Z.of_nat (Z.to_nat idx)) by lia.
  split; [| split].
  - now rewrite length_map, length_seq.
  - rewrite Hidx, highlighted_count.
    destruct (Nat.leb_spec 0 (Z.to_nat idx)), (Nat.ltb_spec (Z.to_nat idx) (0 + len));
      cbn; lia.
  - intros i. rewrite list_lookup_fmap. split.
    + destruct (seq 0 len !! i) as [j |] eqn:Hj; cbn; [| discriminate].
      apply lookup_seq in Hj as [-> _]. intros [= Heq].
      apply Z.eqb_eq in Heq. lia.
    + intros ->. rewrite (lookup_seq_lt 0 len) by lia. cbn.
      f_equal. apply Z.eqb_eq. lia.
Qed.

(** X18 on the sample session: of two dots, the second is highlighted. *)
Lemma one_dot_is_highlighted_witness :
  exists p,
    @run sample_engine initial_page sample_session = Some p
    /\ dots (cells p) = [false; true]
    /\ length (List.filter id (dots (cells p))) = 1%nat.
Proof.
  eexists. split; [vm_compute; reflexivity |]. split; [reflexivity |].
  apply (@one_dot_is_highlighted sample_engine sample_session);
    [vm_compute; reflexivity |].
  cbn. lia.
Defined.

(** * Properties of the response viewer *)

Lemma split_dots_no_dot s : Viewer.has_dot s = false -> Viewer.split_dots s = [s].
Proof.
  induction s as [| c rest IH]; cbn [Viewer.has_dot Viewer.split_dots]; [reflexivity |].
  intros Hdot. apply orb_false_elim in Hdot as [Hc Hrest].
  now rewrite Hc, (IH Hrest).
Qed.

Lemma split_dots_after_dot base ext :
  exists front,
    front <> []
    /\ Viewer.split_dots (base ++ "." ++ ext) = (front ++ Viewer.split_dots ext)%list.
Proof.
  induction base as [| c rest (front & Hfront & IH)].
  - exists [EmptyString]. split; [discriminate | reflexivity].
  - change (String c rest ++ "." ++ ext) with (String c (rest ++ "." ++ ext)).
    cbn [Viewer.split_dots]. rewrite IH.
    destruct (Ascii.eqb c ".").
    + exists (EmptyString :: front). split; [discriminate | reflexivity].
    + destruct front as [| piece pieces]; [contradiction |].
      exists (String c piece :: pieces). split; [discriminate | reflexivity].
Qed.

Lemma split_dots_not_empty s : Viewer.split_dots s <> [].
Proof.
  destruct s as [| c rest]; cbn [Viewer.split_dots]; [discriminate |].
  destruct (Ascii.eqb c "."); [discriminate |].
  destruct (Viewer.split_dots rest); discriminate.
Qed.

Lemma pop_app front pieces :
  pieces <> [] -> Viewer.pop (front ++ pieces) = Viewer.pop pieces.
Proof.
  intros Hne. unfold Viewer.pop. induction front as [| piece front IH]; [reflexivity |].
  cbn [app List.last]. destruct (front ++ pieces)%list eqn:Happ; [| exact IH].
  apply app_eq_nil in Happ as [_ Habs]. contradiction.
Qed.

(** X19.  The extension of a file name is what follows its last dot, in
    lower case; a name without a dot is its own extension.  So a file called
    "JSON" is parsed as JSON, as is "notes.txt.JSON", while "notes.json.txt"
    and "notes.json." are shown as text. *)
Theorem extension_is_after_last_dot :
  (forall file_name,
      Viewer.has_dot file_name = false ->
      Viewer.extension file_name = Viewer.toLowerCase file_name)
  /\ (forall base ext,
        Viewer.has_dot ext = false ->
        Viewer.extension (base ++ "." ++ ext) = Viewer.toLowerCase ext).
Proof.
  split.
  - intros file_name Hdot. unfold Viewer.extension.
    now rewrite (split_dots_no_dot _ Hdot).
  - intros base ext Hdot. unfold Viewer.extension.
    destruct (split_dots_after_dot base ext) as (front & _ & ->).
    rewrite pop_app by apply split_dots_not_empty.
    now rewrite (split_dots_no_dot _ Hdot).
Qed.

(** X19 at the four names. *)
Lemma extension_is_after_last_dot_witness :
  Viewer.extension "JSON" = "json"
  /\ Viewer.extension ("notes.txt" ++ "." ++ "JSON") = "json"
  /\ Viewer.extension ("notes.json" ++ "." ++ "txt") = "txt"
  /\ Viewer.extension ("notes.json" ++ "." ++ "") = "".
Proof.
  destruct extension_is_after_last_dot as [Hwhole Hlast].
  split; [apply (Hwhole "JSON"); reflexivity |].
  split; [apply (Hlast "notes.txt" "JSON"); reflexivity |].
  split; [apply (Hlast "notes.json" "txt"); reflexivity |].
  apply (Hlast "notes.json" ""); reflexivity.
Defined.

(** How reading and parsing a file goes: the value to show and its type, or
    the message of the error. *)
Lemma upload_cases parse f s :
  (exists v t,
      Viewer.upload parse f s
      = {| Viewer.response := v; Viewer.loading := false;
           Viewer.error := None; Viewer.fileType := Some t |}
      /\ (t = Viewer.type_text -> exists text, v = VStr text))
  \/ (exists msg,
        Viewer.upload parse f s
        = {| Viewer.response := Viewer.response s; Viewer.loading := false;
             Viewer.error := Some ("Error reading file: " ++ msg);
             Viewer.fileType := Viewer.fileType s |}).
Proof.
  unfold Viewer.upload, Viewer.handleFileUpload_settled. cbn [fst Viewer.handleFileUpload].
  destruct (Viewer.contents f) as [text | msg]; cbn [bind catch].
  - destruct (String.eqb (Viewer.extension (Viewer.name f)) "json").
    + destruct (parse text) as [v | msg]; cbn [bind catch].
      * left. exists v, Viewer.type_json. split; [reflexivity | discriminate].
      * right. exists msg. reflexivity.
    + left. exists (VStr text), Viewer.type_text. split; [reflexivity | eauto].
  - right. exists msg. reflexivity.
Qed.

(** X20.  What an upload leaves, in whatever state the viewer is when the
    file has been read.  It succeeds when the text of the file can be read
    and, under a name whose extension is [json], parses: the response is then
    the text itself with the type text, or the parsed value with the type
    JSON, and the error cell is left as it is.  It fails when the text cannot
    be read, or does not parse under such a name: the error is then
    "Error reading file: " and the message of that failure, and the response
    and the file type stay as they were, so that an earlier panel stays on
    the page next to the error.  Either way [loading] is cleared.  Starting
    an upload sets [loading] and empties the error, and touches nothing when
    no file was picked; so an upload that succeeds with nothing happening in
    between ends with no error shown. *)
Theorem upload_succeeds_or_keeps_content
    (parse : string -> result value) (f : Viewer.file) (s : Viewer.state) :
  Viewer.handleFileUpload (Some f) s
  = ({| Viewer.response := Viewer.response s; Viewer.loading := true;
        Viewer.error := None; Viewer.fileType := Viewer.fileType s |}, Some f)
  /\ Viewer.handleFileUpload None s = (s, None)
  /\ (forall text,
        Viewer.contents f = Ok text ->
        Viewer.extension (Viewer.name f) <> "json" ->
        Viewer.handleFileUpload_settled parse f s
        = {| Viewer.response := VStr text; Viewer.loading := false;
             Viewer.error := Viewer.error s;
             Viewer.fileType := Some Viewer.type_text |}
        /\ Viewer.upload parse f s
           = {| Viewer.response := VStr text; Viewer.loading := false;
                Viewer.error := None; Viewer.fileType := Some Viewer.type_text |})
  /\ (forall text v,
        Viewer.contents f = Ok text ->
        Viewer.extension (Viewer.name f) = "json" ->
        parse text = Ok v ->
        Viewer.handleFileUpload_settled parse f s
        = {| Viewer.response := v; Viewer.loading := false;
             Viewer.error := Viewer.error s;
             Viewer.fileType := Some Viewer.type_json |}
        /\ Viewer.upload parse f s
           = {| Viewer.response := v; Viewer.loading := false;
                Viewer.error := None; Viewer.fileType := Some Viewer.type_json |})
  /\ (forall msg,
        Viewer.contents f = Throw msg
        \/ (exists text,
              Viewer.contents f = Ok text
              /\ Viewer.extension (Viewer.name f) = "json"
              /\ parse text = Throw msg) ->
        Viewer.handleFileUpload_settled parse f s
        = {| Viewer.response := Viewer.response s; Viewer.loading := false;
             Viewer.error := Some ("Error reading file: " ++ msg);
             Viewer.fileType := Viewer.fileType s |}
        /\ Viewer.renderResponse (Viewer.handleFileUpload_settled parse f s)
           = Viewer.renderResponse s
        /\ Viewer.response_area (Viewer.handleFileUpload_settled parse f s)
           = Viewer.response_area s).
Proof.
  split; [reflexivity |]. split; [reflexivity |].
  unfold Viewer.upload, Viewer.handleFileUpload_settled.
  cbn [fst Viewer.handleFileUpload].
  split; [| split].
  - intros text Htext Hother. apply String.eqb_neq in Hother.
    rewrite Htext. cbn [bind catch]. rewrite Hother. split; reflexivity.
  - intros text v Htext Hjson Hv.
    rewrite Htext. cbn [bind catch]. rewrite Hjson, String.eqb_refl, Hv.
    split; reflexivity.
  - intros msg [Hread | (text & Htext & Hjson & Hparse)].
    + rewrite Hread. repeat split.
    + rewrite Htext. cbn [bind catch]. rewrite Hjson, String.eqb_refl, Hparse.
      repeat split.
Qed.

(** X20 at a file whose name says JSON and whose text does not parse, picked
    while the empty object of an earlier file is shown, and at that earlier
    file. *)
Lemma upload_succeeds_or_keeps_content_witness :
  Viewer.upload Viewer.sample_parse
    {| Viewer.name := "empty.json"; Viewer.contents := Ok "{}" |}
    Viewer.initial_state
  = {| Viewer.response := VObj ∅; Viewer.loading := false;
       Viewer.error := None; Viewer.fileType := Some Viewer.type_json |}
  /\ Viewer.handleFileUpload_settled Viewer.sample_parse
       {| Viewer.name := "broken.json"; Viewer.contents := Ok "{" |}
       {| Viewer.response := VObj ∅; Viewer.loading := true;
          Viewer.error := None; Viewer.fileType := Some Viewer.type_json |}
     = {| Viewer.response := VObj ∅; Viewer.loading := false;
          Viewer.error := Some "Error reading file: Unexpected token";
          Viewer.fileType := Some Viewer.type_json |}.
Proof.
  split.
  - destruct (upload_succeeds_or_keeps_content Viewer.sample_parse
                {| Viewer.name := "empty.json"; Viewer.contents := Ok "{}" |}
                Viewer.initial_state) as (_ & _ & _ & Hjson & _).
    apply (Hjson "{}" (VObj ∅)); reflexivity.
  - destruct (upload_succeeds_or_keeps_content Viewer.sample_parse
                {| Viewer.name := "broken.json"; Viewer.contents := Ok "{" |}
                {| Viewer.response := VObj ∅; Viewer.loading := true;
                   Viewer.error := None; Viewer.fileType := Some Viewer.type_json |})
      as (_ & _ & _ & _ & Hfails).
    apply (Hfails "Unexpected token").
    right. exists "{". repeat split.
Defined.

(** X21.  A file with nothing to show uploads without a word, a number
    apart.  When the text of a text file is empty, or a JSON file parses to
    a falsy value ([null], [false], [0], the empty string), the upload
    succeeds (no error, the file type is set) and yet no panel is rendered
    and the page shows the upload prompt, as if no file had been picked.
    The response area is then empty too, unless the value is a number: the
    0 of a JSON file is printed there, bare. *)
Theorem falsy_upload_shows_nothing
    (parse : string -> result value) (f : Viewer.file) (s : Viewer.state) (text : string) :
  Viewer.contents f = Ok text ->
  (Viewer.extension (Viewer.name f) <> "json" /\ text = "")
  \/ (Viewer.extension (Viewer.name f) = "json"
      /\ exists v, parse text = Ok v /\ ToBoolean v = false) ->
  Viewer.error (Viewer.upload parse f s) = None
  /\ is_Some (Viewer.fileType (Viewer.upload parse f s))
  /\ Viewer.renderResponse (Viewer.upload parse f s) = Viewer.NoPanel
  /\ Viewer.shows_upload_prompt (Viewer.upload parse f s) = true
  /\ (Viewer.extension (Viewer.name f) <> "json" ->
      Viewer.response_area (Viewer.upload parse f s) = Viewer.Nothing)
  /\ (forall v,
        Viewer.extension (Viewer.name f) = "json" -> parse text = Ok v ->
        Viewer.response_area (Viewer.upload parse f s)
        = match v with
          | VNum n => Viewer.Printed n
          | _ => Viewer.Nothing
          end).
Proof.
  intros Htext Hfalsy.
  unfold Viewer.upload, Viewer.handleFileUpload_settled.
  cbn [fst Viewer.handleFileUpload]. rewrite Htext. cbn [bind catch].
  destruct Hfalsy as [[Hother ->] | (Hjson & v & Hv & Hfalsy)].
  - pose proof Hother as Hneq. apply String.eqb_neq in Hother. rewrite Hother.
    split; [reflexivity |]. split; [cbn; eauto |]. split; [reflexivity |].
    split; [reflexivity |]. split; [reflexivity |].
    intros v Hjson. contradiction.
  - rewrite Hjson, String.eqb_refl, Hv. cbn [bind catch].
    unfold Viewer.renderResponse, Viewer.shows_upload_prompt, Viewer.response_area.
    cbn [Viewer.response Viewer.error Viewer.fileType Viewer.setLoading
         Viewer.setFileType Viewer.setResponse Viewer.setError].
    rewrite Hfalsy. cbn [negb].
    split; [reflexivity |]. split; [eauto |]. split; [reflexivity |].
    split; [reflexivity |]. split; [intros Habs; contradiction |].
    intros v' _ [= <-]. reflexivity.
Qed.

(** X21 at a JSON file holding [null], and at one holding [0]. *)
Lemma falsy_upload_shows_nothing_witness :
  Viewer.response_area
    (Viewer.upload Viewer.sample_parse
       {| Viewer.name := "answer.json"; Viewer.contents := Ok "null" |}
       Viewer.initial_state)
  = Viewer.Nothing
  /\ Viewer.response_area
       (Viewer.upload Viewer.sample_parse
          {| Viewer.name := "answer.json"; Viewer.contents := Ok "0" |}
          Viewer.initial_state)
     = Viewer.Printed (Finite 0)
  /\ Viewer.renderResponse
       (Viewer.upload Viewer.sample_parse
          {| Viewer.name := "answer.json"; Viewer.contents := Ok "0" |}
          Viewer.initial_state)
     = Viewer.NoPanel.
Proof.
  split.
  - destruct (falsy_upload_shows_nothing Viewer.sample_parse
                {| Viewer.name := "answer.json"; Viewer.contents := Ok "null" |}
                Viewer.initial_state "null" eq_refl) as (_ & _ & _ & _ & _ & Harea).
    + right. split; [reflexivity |]. exists VNull. split; reflexivity.
    + apply (Harea VNull); reflexivity.
  - destruct (falsy_upload_shows_nothing Viewer.sample_parse
                {| Viewer.name := "answer.json"; Viewer.contents := Ok "0" |}
                Viewer.initial_state "0" eq_refl) as (_ & _ & Hpanel & _ & _ & Harea).
    + right. split; [reflexivity |]. exists (VNum (Finite 0)). split; reflexivity.
    + split; [apply (Harea (VNum (Finite 0))); reflexivity | exact Hpanel].
Defined.

(** X22.  Clearing brings the viewer back to where it started.  After any
    upload, successful or not, [clearResponse] gives the initial state; in
    general it empties the response, the error and the file type and leaves
    [loading] alone, and clearing twice is clearing once. *)
Theorem clearResponse_resets
    (parse : string -> result value) (f : Viewer.file) (s : Viewer.state) :
  Viewer.clearResponse (Viewer.upload parse f s) = Viewer.initial_state
  /\ Viewer.clearResponse (Viewer.clearResponse s) = Viewer.clearResponse s
  /\ Viewer.clearResponse s
     = {| Viewer.response := VNull; Viewer.loading := Viewer.loading s;
          Viewer.error := None; Viewer.fileType := None |}
  /\ Viewer.renderResponse (Viewer.clearResponse s) = Viewer.NoPanel.
Proof.
  split; [| repeat split].
  destruct (upload_cases parse f s) as [(v & t & -> & _) | (msg & ->)]; reflexivity.
Qed.

(** X23.  The cells stay in step.  Starting an upload, settling one and
    clearing all keep this true, as it is at the start: when no file type is
    set the response is [null], and when the type is text the response is a
    string.  So the text panel, whenever it is rendered, holds a non-empty
    string, never a parsed JSON value. *)
Theorem viewer_cells_agree (parse : string -> result value) :
  Viewer.cells_agree Viewer.initial_state
  /\ (forall picked s, Viewer.cells_agree s ->
        Viewer.cells_agree (fst (Viewer.handleFileUpload picked s)))
  /\ (forall f s, Viewer.cells_agree s ->
        Viewer.cells_agree (Viewer.handleFileUpload_settled parse f s))
  /\ (forall s, Viewer.cells_agree (Viewer.clearResponse s))
  /\ (forall s v, Viewer.cells_agree s ->
        Viewer.renderResponse s = Viewer.TextPanel v ->
        exists text, v = VStr text /\ text <> "").
Proof.
  split; [reflexivity |]. split; [| split; [| split]].
  - intros [f |] s Hs; exact Hs.
  - intros f s Hs. unfold Viewer.handleFileUpload_settled.
    destruct (Viewer.contents f) as [text | msg]; cbn [bind catch]; [| exact Hs].
    destruct (String.eqb (Viewer.extension (Viewer.name f)) "json").
    + destruct (parse text) as [v | msg]; cbn [bind catch]; [exact I | exact Hs].
    + cbn. eauto.
  - intros s. reflexivity.
  - intros s v Hs. unfold Viewer.renderResponse, Viewer.cells_agree in *.
    destruct (ToBoolean (Viewer.response s)) eqn:Htruthy; cbn [negb]; [| discriminate].
    destruct (Viewer.fileType s) as [[] |]; [discriminate | |].
    + destruct Hs as [text Hs]. intros [= <-]. exists text. split; [exact Hs |].
      rewrite Hs in Htruthy. cbn in Htruthy. apply negb_true_iff in Htruthy.
      now apply String.eqb_neq.
    + rewrite Hs in Htruthy. discriminate.
Qed.

(** X23 at a text file. *)
Lemma viewer_cells_agree_witness :
  Viewer.renderResponse
    (Viewer.upload Viewer.sample_parse
       {| Viewer.name := "answer.txt"; Viewer.contents := Ok "Try this repo" |}
       Viewer.initial_state)
  = Viewer.TextPanel (VStr "Try this repo")
  /\ Viewer.cells_agree
       (Viewer.upload Viewer.sample_parse
          {| Viewer.name := "answer.txt"; Viewer.contents := Ok "Try this repo" |}
          Viewer.initial_state).
Proof.
  split; [reflexivity |].
  destruct (viewer_cells_agree Viewer.sample_parse) as (Hinit & Hstart & Hsettle & _).
  apply Hsettle. apply (Hstart (Some _)). exact Hinit.
Defined.
